(** * A forwarding proxy for the edge runtime: model and verification

    The program under study is [src/index.ts], a single request handler
    that reads a target URL from the request path, forwards the request,
    and rewrites redirects and HTML links so that they lead back through
    the proxy.

    The file has three parts.  Part I is a shallow embedding of the
    handler and of the library functions it calls: strings, replacement
    templates, regular expressions, percent-encoding, JSON, headers,
    requests and responses are written out; the URL parser, the network,
    the text decoders and the bundled landing page are parameters of the
    model (the class [Platform]).  Exceptions are values of the type
    [result].  Part II states and proves the properties that belong to
    the claims of the specification; each names its claim, C1 to C10, in
    its comment.  Part III proves further properties of the handler, X1
    to X23: the target pattern and the target URL, the header lists, the
    answers that are passed on and those that cannot be, the way a
    rewritten redirect leads back, the text that the replacements leave
    alone, and where the status of a response comes from.

    Left out of the model: the checks that the constructors make on the
    syntax of header names, header values and status texts, the
    normalisation of method names, and the delivery of a body as a
    stream (a body is its bytes). *)

From Stdlib Require Import NArith ZArith Zify Ascii Lia.
From stdpp Require Import gmap list strings sorting.

(* ================================================================== *)
(** * Part I: the embedding                                            *)
(* ================================================================== *)

(** ** Strings

    A JavaScript string is a sequence of 16-bit code units.  The code
    units are kept as numbers; [js] reads a literal. *)

Abbreviation jsstring := (list N).

Definition code (a : ascii) : N := N_of_ascii a.
Arguments code a%_char.

Definition js (s : string) : jsstring :=
  List.map N_of_ascii (String.list_ascii_of_string s).

(** The double quote, and literals in which [~] stands for it: [jsq]
    reads [href=~/x~] as the text [href=], double quote, [/x], double
    quote. *)
Definition dquote : N := 34.

Definition jsq (s : string) : jsstring :=
  List.map (fun c => if N.eqb c (code "~") then dquote else c) (js s).

Arguments code : simpl never.
Arguments js : simpl never.
Arguments jsq : simpl never.

Module JsString.

(** [strip_prefix p s] is the rest of [s] after the prefix [p], when
    [s] starts with [p]. *)
Fixpoint strip_prefix (p s : jsstring) : option jsstring :=
  match p with
  | [] => Some s
  | a :: p' =>
      match s with
      | [] => None
      | c :: s' => if N.eqb a c then strip_prefix p' s' else None
      end
  end.

(** [String.prototype.startsWith] *)
Definition startsWith (s p : jsstring) : bool :=
  match strip_prefix p s with Some _ => true | None => false end.

(** [index_of p s] is the first position of [s] at which [p] occurs. *)
Fixpoint index_of (p s : jsstring) : option nat :=
  if startsWith s p then Some 0%nat
  else match s with
       | [] => None
       | _ :: s' => S <$> index_of p s'
       end.

(** [String.prototype.includes] *)
Definition includes (s p : jsstring) : bool :=
  match index_of p s with Some _ => true | None => false end.

(** [String.prototype.slice(n)], for [n] within the string. *)
Definition slice_from (n : nat) (s : jsstring) : jsstring := drop n s.

Definition is_digit (c : N) : bool := (48 <=? c)%N && (c <=? 57)%N.
Definition digit_value (c : N) : nat := N.to_nat (c - 48).

(** The ASCII lower-casing applied to header names. *)
Definition lower_unit (c : N) : N :=
  if (65 <=? c)%N && (c <=? 90)%N then (c + 32)%N else c.
Definition lower (s : jsstring) : jsstring := List.map lower_unit s.

Fixpoint join (sep : jsstring) (l : list jsstring) : jsstring :=
  match l with
  | [] => []
  | [x] => x
  | x :: l' => x ++ sep ++ join sep l'
  end.

(** The order of strings by their code units, in which the names of a
    header list are sorted. *)
Fixpoint lex_leb (a b : jsstring) : bool :=
  match a, b with
  | [], _ => true
  | _ :: _, [] => false
  | x :: a', y :: b' =>
      if (x <? y)%N then true
      else if N.eqb x y then lex_leb a' b'
      else false
  end.

(** *** Replacement templates

    [GetSubstitution] of the language standard: the expansion of the
    dollar patterns of a replacement string.  [matched] is the matched
    text, [str] the whole subject, [position] the index of the match,
    [m] the number of capture groups and [caps] the captures. *)
Section Substitution.
Variables (matched str : jsstring) (position m : nat)
          (caps : gmap nat jsstring).

Definition capture (n : nat) : jsstring := default [] (caps !! n).
Definition valid_ref (n : nat) : bool :=
  (1 <=? n)%nat && (n <=? m)%nat.

Fixpoint GetSubstitution (template : jsstring) : jsstring :=
  match template with
  | [] => []
  | c :: t =>
      if negb (N.eqb c (code "$")) then c :: GetSubstitution t
      else
        match t with
        | [] => [c]
        | d :: t1 =>
            if N.eqb d (code "$") then code "$" :: GetSubstitution t1
            else if N.eqb d (code "&") then matched ++ GetSubstitution t1
            else if N.eqb d (code "`") then
              take position str ++ GetSubstitution t1
            else if N.eqb d (code "'") then
              drop (position + length matched) str ++ GetSubstitution t1
            else if is_digit d then
              let one := digit_value d in
              let single :=
                if valid_ref one then capture one ++ GetSubstitution t1
                else c :: d :: GetSubstitution t1 in
              match t1 with
              | d2 :: t2 =>
                  if is_digit d2 then
                    let two := (10 * one + digit_value d2)%nat in
                    if valid_ref two then capture two ++ GetSubstitution t2
                    else single
                  else single
              | [] => single
              end
            else c :: GetSubstitution t
        end
  end.
End Substitution.

(** [String.prototype.replace] with a string pattern: only the first
    occurrence is replaced; the replacement is a template without
    captures. *)
Definition replace_first (pattern template s : jsstring) : jsstring :=
  match index_of pattern s with
  | None => s
  | Some i =>
      take i s
        ++ GetSubstitution pattern s i 0 ∅ template
        ++ drop (i + length pattern) s
  end.

End JsString.

(** ** Regular expressions

    The fragment of the pattern language that the program uses, with the
    backtracking semantics of the language standard written in
    continuation-passing style. *)

Module RegExp.
Import JsString.

Inductive regex : Type :=
| Lit (l : jsstring)            (* a run of pattern characters *)
| Dot                           (* .      *)
| Bol                           (* ^      *)
| Class (cs : list N)           (* [...]  *)
| Seq (r1 r2 : regex)
| Alt (r1 r2 : regex)           (* r1|r2  *)
| Opt (r : regex)               (* r?     *)
| LazyStar (r : regex)          (* r*?    *)
| Group (n : nat) (r : regex)   (* the n-th pair of capturing parentheses *)
| NotAhead (r : regex).         (* (?!r)  *)

Definition captures : Type := gmap nat jsstring.

(** The result of a match: its length, the input left after it and the
    captures. *)
Definition mresult : Type := nat * jsstring * captures.
Definition cont : Type := nat -> jsstring -> captures -> option mresult.

Definition accept : cont := fun n s caps => Some (n, s, caps).

(** LineTerminator: LF, CR, LS, PS *)
Definition is_line_terminator (c : N) : bool :=
  N.eqb c 10 || N.eqb c 13 || N.eqb c 8232 || N.eqb c 8233.

(** [run r base n s caps k]: match [r] in an attempt that started at
    index [base] of the input and has consumed [n] code units, where [s]
    is the input still ahead, then continue with [k].  A failing
    continuation makes the matcher backtrack into the alternatives of
    [r].  An iteration of [r*?] that consumes nothing is rejected. *)
Fixpoint run (r : regex) (base n : nat) (s : jsstring) (caps : captures)
         (k : cont) {struct r} : option mresult :=
  match r with
  | Lit l =>
      match strip_prefix l s with
      | Some s' => k (n + length l)%nat s' caps
      | None => None
      end
  | Dot =>
      match s with
      | c :: s' => if is_line_terminator c then None else k (S n) s' caps
      | [] => None
      end
  | Bol => if Nat.eqb (base + n) 0 then k n s caps else None
  | Class cs =>
      match s with
      | c :: s' => if existsb (N.eqb c) cs then k (S n) s' caps else None
      | [] => None
      end
  | Seq r1 r2 =>
      run r1 base n s caps (fun n' s' caps' => run r2 base n' s' caps' k)
  | Alt r1 r2 =>
      match run r1 base n s caps k with
      | Some res => Some res
      | None => run r2 base n s caps k
      end
  | Opt r1 =>
      match run r1 base n s caps k with
      | Some res => Some res
      | None => k n s caps
      end
  | LazyStar r1 =>
      match k n s caps with
      | Some res => Some res
      | None =>
          (fix more (fuel : nat) (n : nat) (s : jsstring) (caps : captures)
             : option mresult :=
             match fuel with
             | O => None
             | S fuel' =>
                 run r1 base n s caps
                   (fun n' s' caps' =>
                      if Nat.eqb n' n then None
                      else match k n' s' caps' with
                           | Some res => Some res
                           | None => more fuel' n' s' caps'
                           end)
             end) (length s) n s caps
      end
  | Group g r1 =>
      run r1 base n s caps
        (fun n' s' caps' => k n' s' (<[g := take (n' - n) s]> caps'))
  | NotAhead r1 =>
      match run r1 base n s caps accept with
      | Some _ => None
      | None => k n s caps
      end
  end.

(** The number of capture groups of a pattern. *)
Fixpoint ngroups (r : regex) : nat :=
  match r with
  | Lit _ | Dot | Bol | Class _ => 0
  | Seq r1 r2 | Alt r1 r2 => ngroups r1 + ngroups r2
  | Opt r1 | LazyStar r1 | NotAhead r1 => ngroups r1
  | Group _ r1 => S (ngroups r1)
  end.

(** A match attempt at index [i] of the input, whose rest is [s]. *)
Definition match_at (r : regex) (i : nat) (s : jsstring) : option mresult :=
  run r i 0 s ∅ accept.

(** [RegExp.prototype.test] of a pattern without the [g] and [y] flags:
    is there a match starting at some index. *)
Fixpoint search_from (r : regex) (i : nat) (s : jsstring) : bool :=
  match match_at r i s with
  | Some _ => true
  | None =>
      match s with
      | [] => false
      | _ :: s' => search_from r (S i) s'
      end
  end.

Definition test (r : regex) (input : jsstring) : bool :=
  search_from r 0 input.

(** [String.prototype.replace] with a pattern that has the [g] flag.
    The input is scanned from left to right; [i] is the index of [s] in
    the input and [skip] counts the code units of the current match that
    are still to be passed over.  After an empty match the scan moves on
    by one code unit, which is copied. *)
Fixpoint scan (r : regex) (template input : jsstring)
         (i : nat) (s : jsstring) (skip : nat) {struct s} : jsstring :=
  let copy :=
    match s with
    | [] => []
    | c :: s' => c :: scan r template input (S i) s' 0
    end in
  match skip with
  | S skip' =>
      match s with
      | [] => []
      | _ :: s' => scan r template input (S i) s' skip'
      end
  | O =>
      match match_at r i s with
      | None => copy
      | Some (len, _, caps) =>
          let replacement :=
            GetSubstitution (take len s) input i (ngroups r) caps template in
          match len with
          | O => replacement ++ copy
          | S len' =>
              replacement ++
                match s with
                | [] => []
                | _ :: s' => scan r template input (S i) s' len'
                end
          end
      end
  end.

Definition replace_all (r : regex) (template input : jsstring) : jsstring :=
  scan r template input 0 input 0.

End RegExp.

(** ** Rewriting rules

    A second reading of a global replacement.  A rule replaces one fixed
    opener by a fixed text, unless the opener is followed by the code
    unit it excludes; [rewrites rs s out] says that [out] is [s] with
    the rules [rs] applied from left to right at every position where
    one applies.  Part II shows that the two replacements of the handler
    are of this kind. *)

Module Rules.
Import JsString.

Record rule : Type := Rule {
  opener : jsstring;
  not_before : option N;
  replacement : jsstring
}.

Definition ahead_ok (r : rule) (rest : jsstring) : bool :=
  match not_before r, rest with
  | Some c, d :: _ => negb (N.eqb c d)
  | _, _ => true
  end.

Definition applies (r : rule) (s : jsstring) : option jsstring :=
  match strip_prefix (opener r) s with
  | Some rest => if ahead_ok r rest then Some rest else None
  | None => None
  end.

(** The replacement and the rest of the input for the first rule that
    applies at the start of [s]. *)
Fixpoint first_match (rs : list rule) (s : jsstring)
  : option (jsstring * jsstring) :=
  match rs with
  | [] => None
  | r :: rs' =>
      match applies r s with
      | Some rest => Some (replacement r, rest)
      | None => first_match rs' s
      end
  end.

Inductive rewrites (rs : list rule) : jsstring -> jsstring -> Prop :=
| rewrites_end : first_match rs [] = None -> rewrites rs [] []
| rewrites_copy c s out :
    first_match rs (c :: s) = None ->
    rewrites rs s out -> rewrites rs (c :: s) (c :: out)
| rewrites_hit s repl rest out :
    first_match rs s = Some (repl, rest) ->
    rewrites rs rest out -> rewrites rs s (repl ++ out).

(** [clear_of r x]: no opener of [r] that starts before [x] can end
    inside [x], and a match that ends right before [x] is not excluded
    by the first code unit of [x]. *)
Definition clear_of (r : rule) (x : jsstring) : bool :=
  forallb (fun k => negb (startsWith x (drop k (opener r))))
    (seq 1 (length (opener r) - 1))
  && ahead_ok r x.

Definition clear (rs : list rule) (x : jsstring) : bool :=
  forallb (fun r => clear_of r x) rs.

(** A text without the dollar sign stands for itself in a replacement
    template. *)
Definition no_dollar (l : jsstring) : bool :=
  forallb (fun c => negb (N.eqb c (code "$"))) l.


(** The pattern [r] with the replacement [template] behaves as the rules
    [rs]: where a rule applies the pattern matches the opener and the
    template expands to the replacement of the rule, and where no rule
    applies the pattern does not match. *)
Definition realises (r : RegExp.regex) (template : jsstring)
           (rs : list rule) : Prop :=
  forall input i s,
    match first_match rs s with
    | Some (repl, rest) =>
        exists len left caps,
          RegExp.match_at r i s = Some (S len, left, caps)
          /\ (S len <= length s)%nat /\ rest = drop (S len) s
          /\ GetSubstitution (take (S len) s) input i (RegExp.ngroups r)
               caps template
             = repl
    | None => RegExp.match_at r i s = None
    end.

End Rules.

(** ** Percent-encoding

    [encodeURIComponent] and [decodeURIComponent] of the language
    standard ([Encode] and [Decode] with the component character sets).
    Both throw a [URIError] on malformed input, which is [None] here. *)

Module URI.
Local Open Scope N_scope.

Definition is_alpha (c : N) : bool :=
  ((65 <=? c) && (c <=? 90)) || ((97 <=? c) && (c <=? 122)).
Definition is_decimal (c : N) : bool := (48 <=? c) && (c <=? 57).

(** uriUnreserved: letters, digits and the marks [- _ . ! ~ * ' ( )] *)
Definition is_unreserved (c : N) : bool :=
  is_alpha c || is_decimal c
  || existsb (N.eqb c)
       [code "-"; code "_"; code "."; code "!"; code "~";
        code "*"; code "'"; code "("; code ")"].

Definition hex_digit (d : N) : N :=
  if d <? 10 then 48 + d else 55 + d.          (* 0-9, A-F *)

Definition hex_value (c : N) : option N :=
  if (48 <=? c) && (c <=? 57) then Some (c - 48)
  else if (65 <=? c) && (c <=? 70) then Some (c - 55)
  else if (97 <=? c) && (c <=? 102) then Some (c - 87)
  else None.

Definition percent (b : N) : jsstring :=
  [code "%"; hex_digit (b / 16); hex_digit (b mod 16)].

(** The UTF-8 octets of a code point. *)
Definition utf8_octets (cp : N) : list N :=
  if cp <? 128 then [cp]
  else if cp <? 2048 then [192 + cp / 64; 128 + cp mod 64]
  else if cp <? 65536 then
    [224 + cp / 4096; 128 + (cp / 64) mod 64; 128 + cp mod 64]
  else
    [240 + cp / 262144; 128 + (cp / 4096) mod 64;
     128 + (cp / 64) mod 64; 128 + cp mod 64].

Definition is_high_surrogate (c : N) : bool := (55296 <=? c) && (c <=? 56319).
Definition is_low_surrogate (c : N) : bool := (56320 <=? c) && (c <=? 57343).

Definition escape (cp : N) : jsstring := concat (List.map percent (utf8_octets cp)).

Fixpoint encodeURIComponent (s : jsstring) : option jsstring :=
  match s with
  | [] => Some []
  | c :: t =>
      if is_unreserved c then cons c <$> encodeURIComponent t
      else if is_low_surrogate c then None
      else if is_high_surrogate c then
        match t with
        | d :: t' =>
            if is_low_surrogate d then
              app (escape ((c - 55296) * 1024 + (d - 56320) + 65536))
                <$> encodeURIComponent t'
            else None
        | [] => None
        end
      else app (escape c) <$> encodeURIComponent t
  end.

(** Decoding works on the sequence of items of the input: a code unit
    that stands for itself, or the octet of one escape [%XX]. *)
Inductive item : Type :=
| Unit (c : N)
| Octet (b : N).

Fixpoint items (s : jsstring) : option (list item) :=
  match s with
  | [] => Some []
  | c :: t =>
      if negb (N.eqb c (code "%")) then cons (Unit c) <$> items t
      else
        match t with
        | h :: l :: t' =>
            match hex_value h, hex_value l with
            | Some x, Some y => cons (Octet (16 * x + y)) <$> items t'
            | _, _ => None
            end
        | _ => None
        end
  end.

Definition is_continuation (b : N) : bool := (128 <=? b) && (b <=? 191).

(** The code units of a code point (UTF16EncodeCodePoint). *)
Definition utf16_units (cp : N) : jsstring :=
  if cp <? 65536 then [cp]
  else [55296 + (cp - 65536) / 1024; 56320 + (cp - 65536) mod 1024].

(** A decoded code point is accepted when it is in the range of its
    encoding length, is not a surrogate and is at most U+10FFFF. *)
Definition scalar (lo cp : N) : option jsstring :=
  if (lo <=? cp) && (cp <=? 1114111)
     && negb ((55296 <=? cp) && (cp <=? 57343))
  then Some (utf16_units cp) else None.

Fixpoint decode_items (l : list item) : option jsstring :=
  match l with
  | [] => Some []
  | Unit c :: t => cons c <$> decode_items t
  | Octet b :: t =>
      if b <? 128 then cons b <$> decode_items t
      else if b <? 192 then None
      else if b <? 224 then
        match t with
        | Octet b2 :: t' =>
            if is_continuation b2 then
              u ← scalar 128 ((b - 192) * 64 + (b2 - 128));
              app u <$> decode_items t'
            else None
        | _ => None
        end
      else if b <? 240 then
        match t with
        | Octet b2 :: Octet b3 :: t' =>
            if is_continuation b2 && is_continuation b3 then
              u ← scalar 2048
                    ((b - 224) * 4096 + (b2 - 128) * 64 + (b3 - 128));
              app u <$> decode_items t'
            else None
        | _ => None
        end
      else if b <? 248 then
        match t with
        | Octet b2 :: Octet b3 :: Octet b4 :: t' =>
            if is_continuation b2 && is_continuation b3
               && is_continuation b4 then
              u ← scalar 65536
                    ((b - 240) * 262144 + (b2 - 128) * 4096
                     + (b3 - 128) * 64 + (b4 - 128));
              app u <$> decode_items t'
            else None
        | _ => None
        end
      else None
  end.

Definition decodeURIComponent (s : jsstring) : option jsstring :=
  l ← items s; decode_items l.

(** The UTF-8 bytes of a string, as a body made from a string is
    sent; a lone surrogate becomes U+FFFD. *)
Fixpoint utf8_encode (s : jsstring) : list N :=
  match s with
  | [] => []
  | c :: t =>
      if is_low_surrogate c then utf8_octets 65533 ++ utf8_encode t
      else if is_high_surrogate c then
        match t with
        | d :: t' =>
            if is_low_surrogate d then
              utf8_octets ((c - 55296) * 1024 + (d - 56320) + 65536)
                ++ utf8_encode t'
            else utf8_octets 65533 ++ utf8_encode t
        | [] => utf8_octets 65533
        end
      else utf8_octets c ++ utf8_encode t
  end.

(** The strings of 16-bit code units. *)
Definition well_formed (s : jsstring) : Prop := Forall (fun c => c < 65536) s.

(** The code units of an encoded component: the unreserved ones, which
    include the digits of an escape, and the percent sign. *)
Definition is_component_unit (c : N) : bool :=
  is_unreserved c || N.eqb c (code "%").

End URI.

(** ** Errors

    A computation of the program either returns or throws; the handler
    only looks at the [message] of what it catches. *)

Inductive result (A : Type) : Type :=
| Ok (a : A)
| Throw (message : jsstring).
Arguments Ok {A} a.
Arguments Throw {A} message.

Definition bind {A B : Type} (c : result A) (f : A -> result B) : result B :=
  match c with
  | Ok a => f a
  | Throw e => Throw e
  end.

Declare Scope result_scope.
Delimit Scope result_scope with result.
Notation "'let*' x := c 'in' k" := (bind c (fun x => k))
  (at level 10, x name, c at level 100, k at level 200,
   format "'[v' 'let*'  x  :=  c  'in' '/' k ']'") : result_scope.

(** The errors raised by the library functions of the runtime. *)
Inductive builtin_error : Type :=
| InvalidURL (input : jsstring)   (* TypeError of [new URL] and [new Request] *)
| URIMalformed                    (* URIError of the percent-coding functions *)
| StatusOutOfRange (status : N)   (* RangeError of [new Response] *)
| NullBodyStatus (status : N)     (* TypeError: a body with a null-body status *)
| BodyNotAllowed.                 (* TypeError: a body with GET or HEAD *)

(** ** JSON

    [JSON.stringify] of a string (QuoteJSONString) and of the object
    [{ error: message }] that the handler builds. *)

Module JSON.
Local Open Scope N_scope.

Definition hex_lower (d : N) : N := if d <? 10 then 48 + d else 87 + d.

Definition unicode_escape (c : N) : jsstring :=
  js "\u" ++ [hex_lower (c / 4096); hex_lower ((c / 256) mod 16);
              hex_lower ((c / 16) mod 16); hex_lower (c mod 16)].

Definition quote_unit (c : N) : jsstring :=
  if N.eqb c 8 then js "\b"
  else if N.eqb c 9 then js "\t"
  else if N.eqb c 10 then js "\n"
  else if N.eqb c 12 then js "\f"
  else if N.eqb c 13 then js "\r"
  else if N.eqb c dquote then [code "\"; dquote]
  else if N.eqb c (code "\") then js "\\"
  else if c <? 32 then unicode_escape c
  else [c].

Fixpoint quote_units (s : jsstring) : jsstring :=
  match s with
  | [] => []
  | c :: t =>
      if URI.is_high_surrogate c then
        match t with
        | d :: t' =>
            if URI.is_low_surrogate d then c :: d :: quote_units t'
            else unicode_escape c ++ quote_units t
        | [] => unicode_escape c
        end
      else if URI.is_low_surrogate c then unicode_escape c ++ quote_units t
      else quote_unit c ++ quote_units t
  end.

Definition quote (s : jsstring) : jsstring :=
  dquote :: quote_units s ++ [dquote].

(** [JSON.stringify({ error: message })] *)
Definition stringify_error (message : jsstring) : jsstring :=
  jsq "{~error~:" ++ quote message ++ js "}".

(** The code units that a JSON string holds as they are: no control
    character, no double quote, no backslash and no surrogate. *)
Definition is_plain_unit (c : N) : bool :=
  (32 <=? c) && negb (N.eqb c dquote) && negb (N.eqb c (code "\"))
  && negb (URI.is_high_surrogate c) && negb (URI.is_low_surrogate c).
End JSON.

(** ** Headers, requests and responses *)

(** A header list, keyed by the lower-case header name; each name holds
    its values in the order in which they were appended. *)
Abbreviation Headers := (gmap jsstring (list jsstring)).

Module Headers.
Import JsString.

(** [headers.get(name)]: the values of the name, joined by comma and
    space. *)
Definition get (h : Headers) (name : jsstring) : option jsstring :=
  join (js ", ") <$> h !! lower name.

(** [headers.set(name, value)] *)
Definition set (h : Headers) (name value : jsstring) : Headers :=
  <[lower name := [value]]> h.

(** [headers.append(name, value)] *)
Definition append (h : Headers) (name value : jsstring) : Headers :=
  <[lower name := default [] (h !! lower name) ++ [value]]> h.

(** [new Headers(init)] for a sequence of pairs or for the properties
    of an object literal. *)
Definition of_list (l : list (jsstring * jsstring)) : Headers :=
  foldl (fun h kv => append h kv.1 kv.2) ∅ l.

(** The names of a header list with their values, sorted by name. *)
Definition sorted (h : Headers) : list (jsstring * list jsstring) :=
  @merge_sort _
    (fun a b : jsstring * list jsstring => lex_leb a.1 b.1 = true)
    (fun a b => decide (lex_leb a.1 b.1 = true))
    (map_to_list h).

(** The iteration of a header list, [[...headers]]: pairs of a
    lower-case name and its combined value, in the order of the names;
    the values of [set-cookie] are given one by one. *)
Definition entries (h : Headers) : list (jsstring * jsstring) :=
  sorted h ≫= fun kv =>
    if bool_decide (lower kv.1 = js "set-cookie")
    then (fun v => (lower kv.1, v)) <$> kv.2
    else [(lower kv.1, join (js ", ") kv.2)].

(** The own enumerable properties of a [Headers] object, which is what
    the spread syntax [{...headers}] copies.  A header list keeps its
    entries in an internal slot and hands them out through its methods
    and its iterator only, so there is no such property. *)
Definition own_properties (h : Headers) : list (jsstring * jsstring) := [].

(** The values that a sequence of pairs gives for the name [k], in
    their order. *)
Definition values_of (k : jsstring) (l : list (jsstring * jsstring))
  : list jsstring :=
  l ≫= fun kv => if decide (lower kv.1 = k) then [kv.2] else [].

(** The header lists that the constructor and the methods produce: the
    names are in lower case and each name has at least one value. *)
Definition wf (h : Headers) : Prop :=
  forall name vs, h !! name = Some vs -> lower name = name /\ vs <> [].
End Headers.

Inductive Body : Type :=
| NoBody                        (* null *)
| Stream (bytes : list N)       (* a byte stream *)
| Text (s : jsstring).          (* a string *)

Inductive RedirectMode : Type := Follow | Manual.

Record Request : Type := {
  req_url : jsstring;
  method : jsstring;
  req_headers : Headers;
  req_body : option (list N);
  redirect : RedirectMode
}.

Record RequestInit : Type := {
  init_headers : option Headers;
  init_method : option jsstring;
  init_body : option (option (list N));
  init_redirect : option RedirectMode
}.

Record Response : Type := {
  status : N;
  statusText : jsstring;
  headers : Headers;
  body : Body
}.

(** The options of [new Response]; [statusText] may be left out. *)
Record ResponseInit : Type := {
  init_status : N;
  init_statusText : option jsstring;
  init_response_headers : Headers
}.

(** The parts of a parsed URL that the program reads. *)
Record URL : Type := {
  href : jsstring;
  origin : jsstring;
  protocol : jsstring;
  host : jsstring;
  pathname : jsstring;
  search : jsstring
}.

(** ** The runtime

    What the handler gets from the platform it runs on: the URL parser,
    the network, the text decoders, the bundled landing page, the
    wording of the built-in error messages and the status text of a
    response that is built without one (the reason phrase of the status
    on the Workers runtime). *)

Class Platform : Type := {
  URL_parse : jsstring -> option URL;
  fetch_network : Request -> result Response;
  utf8_decode : list N -> jsstring;       (* TextDecoder('utf-8', {fatal: false, ignoreBOM: true}) *)
  gb2312_decode : list N -> jsstring;     (* TextDecoder('gb2312') *)
  defaultHtml : jsstring;                 (* ./default.html *)
  error_message : builtin_error -> jsstring;
  reason_phrase : N -> jsstring           (* statusText of new Response(body, {status}) *)
}.

(** ** The library calls of the handler, over a runtime *)

Section Runtime.
Context `{Platform}.
Local Open Scope result_scope.

Definition throw {A : Type} (e : builtin_error) : result A :=
  Throw (error_message e).

(** [new URL(input)] *)
Definition URL_new (input : jsstring) : result URL :=
  match URL_parse input with
  | Some u => Ok u
  | None => throw (InvalidURL input)
  end.

Definition encodeURIComponent (s : jsstring) : result jsstring :=
  match URI.encodeURIComponent s with
  | Some r => Ok r
  | None => throw URIMalformed
  end.

Definition decodeURIComponent (s : jsstring) : result jsstring :=
  match URI.decodeURIComponent s with
  | Some r => Ok r
  | None => throw URIMalformed
  end.

Definition is_get_or_head (m : jsstring) : bool :=
  bool_decide (m = js "GET") || bool_decide (m = js "HEAD").

(** [new Request(input, init)] for a URL string [input] *)
Definition Request_new (input : jsstring) (init : RequestInit)
  : result Request :=
  let* parsed := URL_new input in
  let m := default (js "GET") (init_method init) in
  let b := default None (init_body init) in
  if is_get_or_head m && bool_decide (is_Some b) then throw BodyNotAllowed
  else Ok {| req_url := href parsed;
             method := m;
             req_headers := default ∅ (init_headers init);
             req_body := b;
             redirect := default Follow (init_redirect init) |}.

(** [new Request(input, init)] for a request [input]: the members of
    [init] that are present replace those of [input].  This is the
    request that [fetch(input, init)] sends. *)
Definition Request_from (input : Request) (init : RequestInit) : Request :=
  {| req_url := req_url input;
     method := default (method input) (init_method init);
     req_headers := default (req_headers input) (init_headers init);
     req_body := default (req_body input) (init_body init);
     redirect := default (redirect input) (init_redirect init) |}.

(** [fetch(input, init)] *)
Definition fetch (input : Request) (init : RequestInit) : result Response :=
  fetch_network (Request_from input init).

Definition is_null_body_status (s : N) : bool :=
  existsb (N.eqb s) [101; 103; 204; 205; 304]%N.

Definition has_body (b : Body) : bool :=
  match b with NoBody => false | _ => true end.

(** A body of which the constructor knows that it is empty: the empty
    string.  The length of a stream is not known to it. *)
Definition is_empty_text (b : Body) : bool :=
  match b with Text [] => true | _ => false end.

(** [new Response(body, init)] on the Workers runtime.  A response that
    is built without a status text has the one of the runtime for its
    status.  With a status that allows no body, a body is refused unless
    it is the empty string, which is taken as no body.  A string body
    without a content type gets the one of plain text. *)
Definition Response_new (b : Body) (init : ResponseInit) : result Response :=
  let s := init_status init in
  if negb ((200 <=? s)%N && (s <=? 599)%N) then throw (StatusOutOfRange s)
  else if has_body b && is_null_body_status s && negb (is_empty_text b)
       then throw (NullBodyStatus s)
  else
    let h := init_response_headers init in
    let b := if is_null_body_status s then NoBody else b in
    Ok {| status := s;
          statusText := default (reason_phrase s) (init_statusText init);
          headers :=
            match b, Headers.get h (js "content-type") with
            | Text _, None =>
                Headers.append h (js "content-type")
                  (js "text/plain;charset=UTF-8")
            | _, _ => h
            end;
          body := b |}.

(** [response.arrayBuffer()] *)
Definition arrayBuffer (r : Response) : list N :=
  match body r with
  | NoBody => []
  | Stream bytes => bytes
  | Text s => URI.utf8_encode s
  end.
End Runtime.

(** ** The handler: [src/index.ts] *)

(** The [return] statement of [handleRequest] that produced a response. *)
Inductive Outcome : Type :=
| LandingPage          (* line 12 *)
| SearchRedirect       (* line 19 *)
| RewrittenRedirect    (* line 60 *)
| RewrittenHtml        (* line 78, after the branch of line 62 *)
| PassThrough          (* line 78, otherwise *)
| ErrorResponse.       (* line 81 *)

Section Worker.
Context `{Platform}.
Import JsString RegExp.
Local Open Scope result_scope.

(** [/^\/https?%3A%2F%2F|^\/https?:\//] *)
Definition path_regex : regex :=
  Alt (Seq Bol (Seq (Lit (js "/http"))
               (Seq (Opt (Lit (js "s"))) (Lit (js "%3A%2F%2F")))))
      (Seq Bol (Seq (Lit (js "/http"))
               (Seq (Opt (Lit (js "s"))) (Lit (js ":/"))))).

(** [(href|src)=~(https?://.*?)] with the flag [g], where [~] is
    written for the double quote *)
Definition absolute_link_regex : regex :=
  Seq (Group 1 (Alt (Lit (js "href")) (Lit (js "src"))))
      (Seq (Lit (jsq "=~"))
           (Group 2 (Seq (Lit (js "http"))
                    (Seq (Opt (Lit (js "s")))
                    (Seq (Lit (js "://")) (LazyStar Dot)))))).

(** [((href|src|action)=[~'])/(?!/)] with the flag [g], where [~] is
    written for the double quote *)
Definition relative_path_regex : regex :=
  Seq (Group 1 (Seq (Group 2 (Alt (Lit (js "href"))
                             (Alt (Lit (js "src")) (Lit (js "action")))))
               (Seq (Lit (js "=")) (Class [dquote; code "'"]))))
      (Seq (Lit (js "/")) (NotAhead (Lit (js "/")))).

Definition ensureProtocol (url defaultProtocol : jsstring) : jsstring :=
  if startsWith url (js "http://") || startsWith url (js "https://")
  then url
  else defaultProtocol ++ js "//" ++ url.

Definition handleRedirect (response : Response) (body : Body)
  : result Response :=
  let* location :=
    URL_new (default [] (Headers.get (headers response) (js "location"))) in
  let* encoded := encodeURIComponent (href location) in
  let modifiedLocation := js "/" ++ encoded in
  Response_new body
    {| init_status := status response;
       init_statusText := Some (statusText response);
       init_response_headers :=
         Headers.of_list
           (Headers.own_properties (headers response)
              ++ [(js "Location", modifiedLocation)]) |}.

Definition replaceRelativePaths (text protocol host origin : jsstring)
  : jsstring :=
  replace_all relative_path_regex
    (js "$1" ++ protocol ++ js "//" ++ host ++ js "/" ++ origin ++ js "/")
    text.

(** Lines 119-127: the text of the body. *)
Definition decodeHtml (arrayBuffer : list N) : jsstring :=
  let res := utf8_decode arrayBuffer in
  if includes res (js "charset=gb2312") then
    replace_first (js "charset=gb2312") (js "charset=utf-8")
      (gb2312_decode arrayBuffer)
  else res.

(** Lines 131-132: the absolute links. *)
Definition prefixAbsoluteLinks (res protocol host : jsstring) : jsstring :=
  replace_all absolute_link_regex
    (jsq "$1=~" ++ protocol ++ js "//" ++ host ++ js "/$2") res.

(** Lines 131-134: both replacements, for the origin of the target. *)
Definition rewriteLinks (res protocol host origin : jsstring) : jsstring :=
  replaceRelativePaths (prefixAbsoluteLinks res protocol host)
    protocol host origin.

Definition handleHtmlContent (response : Response)
           (protocol host actualUrlStr : jsstring) : result jsstring :=
  let res := decodeHtml (arrayBuffer response) in
  let* target := URL_new actualUrlStr in
  Ok (rewriteLinks res protocol host (origin target)).

Definition jsonResponse (data : jsstring) (status : N) : result Response :=
  Response_new (Text data)
    {| init_status := status;
       init_statusText := None;
       init_response_headers :=
         Headers.of_list
           [(js "Content-Type", js "application/json; charset=utf-8")] |}.

Definition filterHeaders (headers : Headers) (filterFunc : jsstring -> bool)
  : Headers :=
  Headers.of_list
    (List.filter (fun kv => filterFunc kv.1) (Headers.entries headers)).

Definition setNoCacheHeaders (headers : Headers) : Headers :=
  Headers.set headers (js "Cache-Control") (js "no-store").

Definition setCorsHeaders (headers : Headers) : Headers :=
  let headers := Headers.set headers (js "Access-Control-Allow-Origin") (js "*") in
  let headers :=
    Headers.set headers (js "Access-Control-Allow-Methods")
      (js "GET, POST, PUT, DELETE") in
  Headers.set headers (js "Access-Control-Allow-Headers") (js "*").

Definition is_redirect_status (s : N) : bool :=
  existsb (N.eqb s) [301; 302; 303; 307; 308]%N.

(** The filter of line 37 *)
Definition not_edge_header (name : jsstring) : bool :=
  negb (startsWith name (js "cf-")).

(** The request built at line 40 and the options given to [fetch] at
    line 51. *)
Definition outbound_init (request : Request) : RequestInit :=
  {| init_headers := Some (filterHeaders (req_headers request) not_edge_header);
     init_method := Some (method request);
     init_body := Some (req_body request);
     init_redirect := Some Manual |}.

Definition dispatch_init (request : Request) : RequestInit :=
  {| init_headers := Some (req_headers request);
     init_method := None;
     init_body := None;
     init_redirect := None |}.

(** Lines 28-34: the target URL. *)
Definition targetUrl (url : URL) : result jsstring :=
  let* actualUrlStr :=
    decodeURIComponent (replace_first (js "/") [] (pathname url)) in
  let actualUrlStr := ensureProtocol actualUrlStr (protocol url) in
  Ok (actualUrlStr ++ search url).

(** Lines 40-45: the request for the target. *)
Definition modifiedRequest (request : Request) (actualUrlStr : jsstring)
  : result Request :=
  Request_new actualUrlStr (outbound_init request).

(** The request that [fetch] hands to the network at line 51. *)
Definition sentRequest (request modifiedRequest : Request) : Request :=
  Request_from modifiedRequest (dispatch_init request).

(** The [try] block of [handleRequest], lines 5-78. *)
Definition handleRequest_try (request : Request)
  : result (Outcome * Response) :=
  let* url := URL_new (req_url request) in
  if bool_decide (pathname url = js "/") then
    let* r :=
      Response_new (Text defaultHtml)
        {| init_status := 200;
           init_statusText := None;
           init_response_headers :=
             Headers.of_list
               [(js "Content-Type", js "text/html; charset=utf-8")] |} in
    Ok (LandingPage, r)
  else if negb (test path_regex (pathname url)) then
    let* r :=
      Response_new NoBody
        {| init_status := 302;
           init_statusText := None;
           init_response_headers :=
             Headers.of_list
               [(js "Location",
                 protocol url ++ js "//" ++ host url
                   ++ js "/https://www.bing.com/search?q="
                   ++ slice_from 1 (pathname url))] |} in
    Ok (SearchRedirect, r)
  else
    let* actualUrlStr := targetUrl url in
    let* modifiedRequest := modifiedRequest request actualUrlStr in
    let* response := fetch modifiedRequest (dispatch_init request) in
    if is_redirect_status (status response) then
      let* r := handleRedirect response (body response) in
      Ok (RewrittenRedirect, r)
    else
      let is_html :=
        match Headers.get (headers response) (js "Content-Type") with
        | Some t => includes t (js "text/html")
        | None => false
        end in
      let* newBody :=
        if is_html then
          let* text :=
            handleHtmlContent response (protocol url) (host url)
              actualUrlStr in
          Ok (Text text)
        else Ok (body response) in
      let* modifiedResponse :=
        Response_new newBody
          {| init_status := status response;
             init_statusText := Some (statusText response);
             init_response_headers := headers response |} in
      let modifiedResponse :=
        {| status := status modifiedResponse;
           statusText := statusText modifiedResponse;
           headers :=
             setCorsHeaders (setNoCacheHeaders (headers modifiedResponse));
           body := body modifiedResponse |} in
      Ok (if is_html then RewrittenHtml else PassThrough, modifiedResponse).
End Worker.

Section Handler.
Context `{Platform}.
Local Open Scope result_scope.

(** [handleRequest] with the label of the [return] statement taken;
    the [catch] clause of lines 79-87 turns what the block throws into
    the error response. *)
Definition handleRequest_outcome (request : Request)
  : result (Outcome * Response) :=
  match handleRequest_try request with
  | Ok r => Ok r
  | Throw message =>
      let* r := jsonResponse (JSON.stringify_error message) 500 in
      Ok (ErrorResponse, r)
  end.

Definition handleRequest (request : Request) : result Response :=
  let* r := handleRequest_outcome request in Ok r.2.

(** Lines 172-176: the [fetch] handler that the module exports. *)
Definition default_fetch {Env ExecutionContext : Type} (request : Request)
           (env : Env) (ctx : ExecutionContext) : result Response :=
  handleRequest request.

End Handler.

(** ** The two replacements as rules

    The openers that [absolute_link_regex] and [relative_path_regex]
    match, each with the text that the template of the replacement
    makes of it. *)

Definition absolute_link_rules (protocol host : jsstring) : list Rules.rule :=
  (fun '(attr, scheme) =>
     Rules.Rule (attr ++ jsq "=~" ++ scheme) None
       (attr ++ jsq "=~" ++ protocol ++ js "//" ++ host ++ js "/" ++ scheme))
  <$> [(js "href", js "https://"); (js "href", js "http://");
       (js "src", js "https://"); (js "src", js "http://")].

Definition relative_path_rules (protocol host origin : jsstring)
  : list Rules.rule :=
  (fun '(attr, q) =>
     Rules.Rule (attr ++ js "=" ++ [q] ++ js "/") (Some (code "/"))
       (attr ++ js "=" ++ [q] ++ protocol ++ js "//" ++ host ++ js "/"
          ++ origin ++ js "/"))
  <$> [(js "href", dquote); (js "href", code "'");
       (js "src", dquote); (js "src", code "'");
       (js "action", dquote); (js "action", code "'")].

(** ** The claim's pattern

    The path pattern as the specification words it,
    [^/https?(:%2F%2F|://)], to be compared with [path_regex]. *)
Definition spec_path_regex : RegExp.regex :=
  RegExp.Seq RegExp.Bol
    (RegExp.Seq (RegExp.Lit (js "/http"))
       (RegExp.Seq (RegExp.Opt (RegExp.Lit (js "s")))
          (RegExp.Alt (RegExp.Lit (js ":%2F%2F")) (RegExp.Lit (js "://"))))).

(** ** The openers of a target path

    The four texts with which a path that [path_regex] accepts can
    start. *)
Definition target_prefixes : list jsstring :=
  [js "/http%3A%2F%2F"; js "/https%3A%2F%2F"; js "/http:/"; js "/https:/"].

(** ** A sample runtime

    A small runtime on which the handler can be run: three resources
    behind a host that answers, and no network beyond it.  Its URL parser
    covers the URLs [http(s)://host/path?query] whose host is made of
    lower-case letters and dots and whose path and query are kept as
    they are by the URL standard; on these it returns what the standard
    prescribes, and it rejects the others.
    Its decoders cover ASCII, where UTF-8 and GB2312 agree. *)

Module Sample.
Import JsString.

Definition is_lower_letter (c : N) : bool := (97 <=? c)%N && (c <=? 122)%N.
Definition is_host_unit (c : N) : bool :=
  is_lower_letter c || N.eqb c (code ".").
Definition is_path_unit (c : N) : bool :=
  URI.is_alpha c || URI.is_decimal c
  || existsb (N.eqb c)
       [code "/"; code "-"; code "_"; code "."; code ":"; code "%"].
Definition is_query_unit (c : N) : bool :=
  URI.is_alpha c || URI.is_decimal c
  || existsb (N.eqb c) [code "="; code "&"; code "-"; code "_"; code "."].

Fixpoint span (p : N -> bool) (s : jsstring) : jsstring * jsstring :=
  match s with
  | c :: t => if p c then let '(a, b) := span p t in (c :: a, b) else ([], s)
  | [] => ([], [])
  end.

Definition valid_host (h : jsstring) : bool :=
  match h with
  | [] => false
  | c :: _ =>
      is_lower_letter c
      && negb (includes h (js ".."))
      && negb (N.eqb (List.last h 0%N) (code "."))
  end.

(** No segment starts with a dot or an escaped dot: the path has no
    dot segments to remove. *)
Definition valid_path (p : jsstring) : bool :=
  forallb is_path_unit p && negb (includes p (js "/."))
  && negb (includes p (js "/%2e")) && negb (includes p (js "/%2E")).

Definition parse_after_scheme (scheme rest : jsstring) : option URL :=
  let '(h, tail) := span is_host_unit rest in
  let '(p, q) := span (fun c => negb (N.eqb c (code "?"))) tail in
  let path := if bool_decide (p = []) then js "/" else p in
  let query_ok :=
    match q with
    | [] => true
    | _ :: q' => bool_decide (q' ≠ []) && forallb is_query_unit q'
    end in
  if valid_host h && startsWith path (js "/") && valid_path path && query_ok
  then Some {| href := scheme ++ js "//" ++ h ++ path ++ q;
               origin := scheme ++ js "//" ++ h;
               protocol := scheme;
               host := h;
               pathname := path;
               search := q |}
  else None.

Definition parse_url (input : jsstring) : option URL :=
  match strip_prefix (js "https://") input with
  | Some rest => parse_after_scheme (js "https:") rest
  | None =>
      match strip_prefix (js "http://") input with
      | Some rest => parse_after_scheme (js "http:") rest
      | None => None
      end
  end.

Definition ascii_decode (bytes : list N) : jsstring :=
  List.map (fun b => if (b <? 128)%N then b else 65533%N) bytes.

Definition page : jsstring :=
  jsq "<html><head><meta charset=~utf-8~></head><body><a href=~https://other.com/x~>x</a><img src=~/logo.png~></body></html>".

(** The network: [https://example.com/] is a page,
    [https://example.com/old] redirects to the site's root and sets a
    cookie, [https://example.com/data] is a JSON document and
    [https://example.com/echo] answers with the names of the headers of
    the request it got; any other request fails to connect. *)
Definition network (r : Request) : result Response :=
  if bool_decide (req_url r = js "https://example.com/") then
    Ok {| status := 200; statusText := js "OK";
          headers := Headers.of_list
                       [(js "content-type", js "text/html; charset=utf-8")];
          body := Stream page |}
  else if bool_decide (req_url r = js "https://example.com/old") then
    Ok {| status := 302; statusText := js "Found";
          headers := Headers.of_list
                       [(js "location", js "https://example.com");
                        (js "set-cookie", js "session=1")];
          body := NoBody |}
  else if bool_decide (req_url r = js "https://example.com/data") then
    Ok {| status := 200; statusText := js "OK";
          headers := Headers.of_list
                       [(js "content-type", js "application/json")];
          body := Stream (jsq "{~ok~:true}") |}
  else if bool_decide (req_url r = js "https://example.com/echo") then
    Ok {| status := 200; statusText := js "OK";
          headers := Headers.of_list [(js "content-type", js "text/plain")];
          body := Stream (join (js ", ")
                            (fst <$> Headers.entries (req_headers r))) |}
  else Throw (js "Network connection lost.").

Definition message (e : builtin_error) : jsstring :=
  match e with
  | InvalidURL _ => js "Invalid URL"
  | URIMalformed => js "URI malformed"
  | StatusOutOfRange _ => js "Responses may only be constructed with status codes in the range 200 to 599, inclusive."
  | NullBodyStatus _ => js "Response with null body status (101, 204, 205, or 304) cannot have a body."
  | BodyNotAllowed => js "Request with a GET or HEAD method cannot have a body."
  end.

(** The reason phrases of the statuses that occur in this file; the
    empty text for the others. *)
Definition reason (s : N) : jsstring :=
  match s with
  | 200 => js "OK"
  | 204 => js "No Content"
  | 205 => js "Reset Content"
  | 301 => js "Moved Permanently"
  | 302 => js "Found"
  | 303 => js "See Other"
  | 304 => js "Not Modified"
  | 307 => js "Temporary Redirect"
  | 308 => js "Permanent Redirect"
  | 400 => js "Bad Request"
  | 404 => js "Not Found"
  | 500 => js "Internal Server Error"
  | _ => []
  end%N.

Definition platform : Platform :=
  {| URL_parse := parse_url;
     fetch_network := network;
     utf8_decode := ascii_decode;
     gb2312_decode := ascii_decode;
     defaultHtml := jsq "<!DOCTYPE html><title>proxy</title>";
     error_message := message;
     reason_phrase := reason |}.

Definition inbound (u : string) (h : list (jsstring * jsstring)) : Request :=
  {| req_url := js u; method := js "GET"; req_headers := Headers.of_list h;
     req_body := None; redirect := Follow |}.

(** The headers that the handler sets on what it passes on. *)
Definition finalizer_headers : list (jsstring * jsstring) :=
  [(js "Cache-Control", js "no-store");
   (js "Access-Control-Allow-Origin", js "*");
   (js "Access-Control-Allow-Methods", js "GET, POST, PUT, DELETE");
   (js "Access-Control-Allow-Headers", js "*")].

(** The JSON document of the site as it comes back through the proxy. *)
Definition proxied_data : Response :=
  {| status := 200; statusText := js "OK";
     headers := Headers.of_list
                  ((js "content-type", js "application/json")
                     :: finalizer_headers);
     body := Stream (jsq "{~ok~:true}") |}.

End Sample.

(** ** A second site

    A site whose answers have no body: a page that has not changed
    since the client fetched it, which the handler passes on, and an
    upgrade of the connection, which it cannot pass on.  The rest of
    the runtime is the one of [Sample]. *)

Module Stale.

Definition network (r : Request) : result Response :=
  if bool_decide (req_url r = js "https://example.com/cached") then
    Ok {| status := 304; statusText := js "Not Modified";
          headers := Headers.of_list
                       [(js "content-type", js "text/html; charset=utf-8");
                        (js "etag", js "abc")];
          body := NoBody |}
  else if bool_decide (req_url r = js "https://example.com/socket") then
    Ok {| status := 101; statusText := js "Switching Protocols";
          headers := Headers.of_list [(js "upgrade", js "websocket")];
          body := NoBody |}
  else Throw (js "Network connection lost.").

Definition platform : Platform :=
  {| URL_parse := Sample.parse_url;
     fetch_network := network;
     utf8_decode := Sample.ascii_decode;
     gb2312_decode := Sample.ascii_decode;
     defaultHtml := jsq "<!DOCTYPE html><title>proxy</title>";
     error_message := Sample.message;
     reason_phrase := Sample.reason |}.

End Stale.


(* ================================================================== *)
(** * Part II: properties                                              *)
(* ================================================================== *)

(** ** Errors *)

Lemma bind_Ok {A B : Type} (c : result A) (f : A -> result B) (b : B) :
  bind c f = Ok b -> exists a, c = Ok a /\ f a = Ok b.
Proof. destruct c as [a|e]; simpl; [eauto | discriminate]. Qed.

(** Invert a chain of [let*] in a hypothesis. *)
Ltac bind_inv H :=
  let a := fresh "a" in
  let Ha := fresh "Ha" in
  apply bind_Ok in H; destruct H as (a & Ha & H).

(** ** Header lists *)

Module HeadersFacts.
Import JsString.

Lemma lower_unit_idemp c : lower_unit (lower_unit c) = lower_unit c.
Proof.
  unfold lower_unit.
  destruct ((65 <=? c)%N && (c <=? 90)%N) eqn:E; [|by rewrite E].
  apply andb_prop in E as [E1 E2].
  apply N.leb_le in E1. apply N.leb_le in E2.
  replace (c + 32 <=? 90)%N with false; [by rewrite andb_false_r|].
  symmetry. apply N.leb_gt. lia.
Qed.

Lemma lower_idemp s : lower (lower s) = lower s.
Proof.
  unfold lower. rewrite List.map_map.
  apply List.map_ext. intros; apply lower_unit_idemp.
Qed.

Lemma get_set (h : Headers) name value name' :
  Headers.get (Headers.set h name value) name'
  = if decide (lower name = lower name') then Some value
    else Headers.get h name'.
Proof.
  unfold Headers.get, Headers.set. rewrite lookup_insert.
  case_decide; reflexivity.
Qed.

(** Every name of a list built by [new Headers] is the lower-case
    form of a name given to it. *)
Lemma of_list_names (l : list (jsstring * jsstring)) (name : jsstring) :
  is_Some (Headers.of_list l !! name) ->
  exists kv, kv ∈ l /\ name = lower kv.1.
Proof.
  unfold Headers.of_list.
  cut (forall (h : Headers),
         is_Some (foldl (fun h kv => Headers.append h kv.1 kv.2) h l !! name) ->
         is_Some (h !! name) \/ exists kv, kv ∈ l /\ name = lower kv.1).
  { intros C Hs. destruct (C ∅ Hs) as [Hempty|]; [|done].
    rewrite lookup_empty in Hempty. by destruct Hempty. }
  induction l as [|kv l IH]; intros h Hs; simpl in *; [by left|].
  destruct (IH _ Hs) as [Hh|(kv' & Hin & ->)].
  - unfold Headers.append in Hh. rewrite lookup_insert in Hh.
    case_decide as E; [|by left].
    right. exists kv. split; [apply list_elem_of_here | done].
  - right. exists kv'. split; [by apply list_elem_of_further | done].
Qed.

Lemma of_list_single name value :
  Headers.of_list [(name, value)] = {[ lower name := [value] ]}.
Proof.
  unfold Headers.of_list, Headers.append. simpl. by rewrite lookup_empty.
Qed.

Lemma entries_lower (h : Headers) kv :
  kv ∈ Headers.entries h -> lower kv.1 = kv.1.
Proof.
  unfold Headers.entries. intros Hin.
  apply list_elem_of_bind in Hin as (e & Hin & _).
  case_bool_decide.
  - apply list_elem_of_fmap in Hin as (v & -> & _). apply lower_idemp.
  - apply list_elem_of_singleton in Hin as ->. apply lower_idemp.
Qed.
End HeadersFacts.

(** ** The handler *)

Section HandlerFacts.
Context `{Platform}.
Import JsString RegExp HeadersFacts.

Lemma Response_new_Ok b init r :
  Response_new b init = Ok r ->
  status r = init_status init
  /\ statusText r
     = default (reason_phrase (init_status init)) (init_statusText init)
  /\ body r = (if is_null_body_status (init_status init) then NoBody else b)
  /\ forall name, lower name <> js "content-type" ->
       Headers.get (headers r) name
       = Headers.get (init_response_headers init) name.
Proof.
  unfold Response_new.
  destruct (negb _); [discriminate|].
  destruct (has_body b && _ && _); [discriminate|].
  intros [= <-]. cbn [status statusText body headers].
  do 3 (split; [done|]). intros name Hname.
  destruct (is_null_body_status _); [done|].
  destruct b; try done.
  destruct (Headers.get _ (js "content-type")); [done|].
  unfold Headers.get, Headers.append.
  by rewrite lookup_insert_ne.
Qed.

(** A response with a status in range and without a null-body status
    is constructed as given when it names its content type. *)
Lemma jsonResponse_Ok data :
  jsonResponse data 500
  = Ok {| status := 500; statusText := reason_phrase 500;
          headers := Headers.of_list
                       [(js "Content-Type",
                         js "application/json; charset=utf-8")];
          body := Text data |}.
Proof. reflexivity. Qed.

(** The headers that the filter of line 37 lets through. *)
Lemma filterHeaders_sound (h : Headers) (f : jsstring -> bool) name :
  is_Some (filterHeaders h f !! name) -> f name = true.
Proof.
  unfold filterHeaders. intros Hs.
  apply of_list_names in Hs as (kv & Hin & ->).
  apply list_elem_of_In, List.filter_In in Hin as [Hin Hf].
  apply list_elem_of_In in Hin.
  by rewrite (entries_lower _ _ Hin).
Qed.

Lemma modifiedRequest_headers request target m :
  modifiedRequest request target = Ok m ->
  req_headers m = filterHeaders (req_headers request) not_edge_header.
Proof.
  unfold modifiedRequest, Request_new. intros Hm.
  bind_inv Hm. simpl in Hm.
  destruct (is_get_or_head _ && _); [discriminate|].
  by injection Hm as <-.
Qed.

(** The request that reaches the network has the headers of the
    inbound request, whatever the request of line 40 holds. *)
Lemma sentRequest_headers request m :
  req_headers (sentRequest request m) = req_headers request.
Proof. reflexivity. Qed.

Lemma fetch_sends request m :
  fetch m (dispatch_init request) = fetch_network (sentRequest request m).
Proof. reflexivity. Qed.

(** The finalizer of lines 72-76. *)
Lemma finalized_headers (h : Headers) :
  Headers.get (setCorsHeaders (setNoCacheHeaders h)) (js "Cache-Control")
  = Some (js "no-store")
  /\ Headers.get (setCorsHeaders (setNoCacheHeaders h))
       (js "Access-Control-Allow-Origin") = Some (js "*").
Proof.
  unfold setCorsHeaders, setNoCacheHeaders.
  rewrite !get_set. split; repeat case_decide; done.
Qed.
End HandlerFacts.

(** ** The outbound request *)

(** C1.  The claim asks that neither the request built for the target
    nor the request given to the network carries a header whose name
    starts with [cf-].  For the inbound request
    [GET https://proxy.example/https://example.com/echo] with the headers
    [cf-ray: 8f1] and [accept: */*], the request built at line 40 has
    only [accept], but the request that [fetch] sends at line 51 takes
    its headers from the options, which are the inbound headers:
    [cf-ray] is sent to the target, as the answer of the echo resource
    shows, which lists the names in their order. *)
Theorem C1_edge_header_reaches_target :
  not_edge_header (js "cf-ray") = false
  /\ (exists m,
        modifiedRequest (H := Sample.platform)
          (Sample.inbound "https://proxy.example/https://example.com/echo"
             [(js "cf-ray", js "8f1"); (js "accept", js "*/*")])
          (js "https://example.com/echo") = Ok m
        /\ req_headers m = Headers.of_list [(js "accept", js "*/*")]
        /\ req_headers
             (sentRequest
                (Sample.inbound
                   "https://proxy.example/https://example.com/echo"
                   [(js "cf-ray", js "8f1"); (js "accept", js "*/*")]) m)
           = Headers.of_list
               [(js "cf-ray", js "8f1"); (js "accept", js "*/*")])
  /\ handleRequest (H := Sample.platform)
       (Sample.inbound "https://proxy.example/https://example.com/echo"
          [(js "cf-ray", js "8f1"); (js "accept", js "*/*")])
     = Ok {| status := 200; statusText := js "OK";
             headers := Headers.of_list
                          ((js "content-type", js "text/plain")
                             :: Sample.finalizer_headers);
             body := Stream (js "accept, cf-ray") |}.
Proof.
  split; [reflexivity|]. split.
  - eexists. split; [vm_compute; reflexivity|].
    split; vm_compute; reflexivity.
  - vm_compute. reflexivity.
Qed.

(** ** The response headers *)

(** C2, counterexample.  The response for the root path is the landing
    page with its content type and nothing else: it has no
    [Cache-Control] header. *)
Lemma C2_landing_page_has_no_cache_header :
  handleRequest (H := Sample.platform)
    (Sample.inbound "https://proxy.example/" [])
  = Ok {| status := 200; statusText := js "OK";
          headers := Headers.of_list
                       [(js "Content-Type", js "text/html; charset=utf-8")];
          body := Text (defaultHtml (Platform := Sample.platform)) |}
  /\ Headers.get
       (Headers.of_list [(js "Content-Type", js "text/html; charset=utf-8")])
       (js "Cache-Control") = None.
Proof. split; vm_compute; reflexivity. Qed.

Section ResponseHeaders.
Context `{Platform}.
Import JsString RegExp HeadersFacts.

(** C2, amended.  When the handler returns through the last [return]
    of the [try] block, as a proxied pass-through or as rewritten HTML,
    the response carries [Cache-Control: no-store] and
    [Access-Control-Allow-Origin: *]. *)
Theorem C2_finalized_responses (request : Request) (o : Outcome)
        (r : Response) :
  handleRequest_outcome request = Ok (o, r) ->
  o = PassThrough \/ o = RewrittenHtml ->
  Headers.get (headers r) (js "Cache-Control") = Some (js "no-store")
  /\ Headers.get (headers r) (js "Access-Control-Allow-Origin")
     = Some (js "*").
Proof.
  intros Hrun Ho. unfold handleRequest_outcome in Hrun.
  destruct (handleRequest_try request) as [[o' r']|e] eqn:Htry.
  - injection Hrun as -> ->. unfold handleRequest_try in Htry.
    bind_inv Htry. case_bool_decide.
    { bind_inv Htry. injection Htry as <- _. by destruct Ho. }
    destruct (negb _).
    { bind_inv Htry. injection Htry as <- _. by destruct Ho. }
    do 3 bind_inv Htry.
    destruct (is_redirect_status _).
    { bind_inv Htry. injection Htry as <- _. by destruct Ho. }
    do 2 bind_inv Htry. injection Htry as _ <-. simpl.
    apply finalized_headers.
  - rewrite jsonResponse_Ok in Hrun. simpl in Hrun.
    injection Hrun as <- _. by destruct Ho.
Qed.
End ResponseHeaders.

(** The JSON document of the sample site is passed through, with both
    headers. *)
Lemma C2_finalized_responses_witness :
  handleRequest_outcome (H := Sample.platform)
    (Sample.inbound "https://proxy.example/https://example.com/data" [])
  = Ok (PassThrough, Sample.proxied_data)
  /\ Headers.get (headers Sample.proxied_data) (js "Cache-Control")
     = Some (js "no-store")
  /\ Headers.get (headers Sample.proxied_data)
       (js "Access-Control-Allow-Origin") = Some (js "*").
Proof.
  assert (handleRequest_outcome (H := Sample.platform)
            (Sample.inbound "https://proxy.example/https://example.com/data" [])
          = Ok (PassThrough, Sample.proxied_data)) as Hrun
    by (vm_compute; reflexivity).
  split; [exact Hrun|].
  apply (C2_finalized_responses (H := Sample.platform) _ _ _ Hrun).
  left. reflexivity.
Defined.

(** ** Redirects *)

Section RedirectFacts.
Context `{Platform}.
Import JsString HeadersFacts.

(** What [handleRedirect] returns: the body, status and status text of
    the response it is given, and a header list made for [Location]
    alone; no header of the response is copied.  The body is the one
    given for every status that allows a body, the redirects among
    them. *)
Lemma handleRedirect_Ok response b r :
  handleRedirect response b = Ok r ->
  status r = status response /\ statusText r = statusText response
  /\ body r = (if is_null_body_status (status response) then NoBody else b)
  /\ (exists location encoded,
        URL_parse
          (default [] (Headers.get (headers response) (js "location")))
        = Some location
        /\ URI.encodeURIComponent (href location) = Some encoded
        /\ Headers.get (headers r) (js "Location")
           = Some (js "/" ++ encoded))
  /\ forall name,
       lower name <> js "location" -> lower name <> js "content-type" ->
       Headers.get (headers r) name = None.
Proof.
  unfold handleRedirect, URL_new, encodeURIComponent. intros Hr.
  destruct (URL_parse _) as [location|]; [|discriminate]. cbn [bind] in Hr.
  destruct (URI.encodeURIComponent _) as [encoded|] eqn:He; [|discriminate].
  cbn [bind] in Hr.
  apply Response_new_Ok in Hr as (Hs & Ht & Hb & Hh).
  cbn [init_status init_statusText init_response_headers
       Headers.own_properties app] in *.
  rewrite of_list_single in Hh.
  do 3 (split; [done|]). split.
  - exists location, encoded. do 2 (split; [done|]).
    rewrite Hh by done. unfold Headers.get.
    by rewrite lookup_singleton_eq.
  - intros name Hl Hc. rewrite Hh by done. unfold Headers.get.
    rewrite lookup_singleton_ne; [done|].
    intros E. apply Hl. by rewrite <- E.
Qed.
End RedirectFacts.

Section OtherResponses.
Context `{Platform}.
Import JsString.

(** The other responses are returned as they were built, and none of
    them was built with a [Cache-Control] header. *)
Lemma other_responses_as_built (request : Request) (o : Outcome)
      (r : Response) :
  handleRequest_outcome request = Ok (o, r) ->
  o <> PassThrough -> o <> RewrittenHtml ->
  Headers.get (headers r) (js "Cache-Control") = None.
Proof.
  intros Hrun Hpass Hhtml.
  assert (lower (js "Cache-Control") <> js "content-type") as Hcc
    by (vm_compute; discriminate).
  assert (lower (js "Cache-Control") <> js "location") as Hloc
    by (vm_compute; discriminate).
  unfold handleRequest_outcome in Hrun.
  destruct (handleRequest_try request) as [[o' r']|e] eqn:Htry.
  - injection Hrun as -> ->. unfold handleRequest_try in Htry.
    bind_inv Htry. case_bool_decide.
    { bind_inv Htry. injection Htry as _ <-.
      apply Response_new_Ok in Ha0 as (_ & _ & _ & Hh).
      by rewrite Hh. }
    destruct (negb _).
    { bind_inv Htry. injection Htry as _ <-.
      apply Response_new_Ok in Ha0 as (_ & _ & _ & Hh).
      by rewrite Hh. }
    do 3 bind_inv Htry.
    destruct (is_redirect_status _).
    { bind_inv Htry. injection Htry as _ <-.
      apply handleRedirect_Ok in Ha3 as (_ & _ & _ & _ & Hh).
      by apply Hh. }
    do 2 bind_inv Htry. injection Htry as <- _.
    by destruct (match Headers.get _ _ with Some _ => _ | None => _ end).
  - rewrite jsonResponse_Ok in Hrun. by injection Hrun as _ <-.
Qed.
End OtherResponses.

(** C3.  The claim asks that a redirect keeps every header of the target
    other than [Location].  The sample site answers
    [https://example.com/old] with [302 Found], [location:
    https://example.com] and [set-cookie: session=1].  [handleRedirect]
    keeps the status, the status text and the body, but the header list
    it builds by spreading the header object holds [Location] only: the
    cookie is lost, and the handler returns the response as it is. *)
Theorem C3_redirect_drops_headers :
  handleRedirect (H := Sample.platform)
    {| status := 302; statusText := js "Found";
       headers := Headers.of_list
                    [(js "location", js "https://example.com");
                     (js "set-cookie", js "session=1")];
       body := NoBody |} NoBody
  = Ok {| status := 302; statusText := js "Found";
          headers := Headers.of_list
                       [(js "Location", js "/https%3A%2F%2Fexample.com%2F")];
          body := NoBody |}
  /\ Headers.get
       (Headers.of_list
          [(js "location", js "https://example.com");
           (js "set-cookie", js "session=1")])
       (js "set-cookie") = Some (js "session=1")
  /\ Headers.get
       (Headers.of_list [(js "Location", js "/https%3A%2F%2Fexample.com%2F")])
       (js "set-cookie") = None
  /\ handleRequest (H := Sample.platform)
       (Sample.inbound "https://proxy.example/https://example.com/old" [])
     = Ok {| status := 302; statusText := js "Found";
             headers :=
               Headers.of_list
                 [(js "Location", js "/https%3A%2F%2Fexample.com%2F")];
             body := NoBody |}.
Proof. repeat split; vm_compute; reflexivity. Qed.

(** ** The search redirect *)

(** C5, counterexample.  The path [/https%3A%2F%2Fexample.com%2Fdata] is
    not the root and does not match the pattern of the claim, yet the
    handler matches it, forwards the request to
    [https://example.com/data] and returns the answer with status 200. *)
Lemma C5_encoded_target_is_proxied :
  RegExp.test spec_path_regex (js "/https%3A%2F%2Fexample.com%2Fdata") = false
  /\ RegExp.test path_regex (js "/https%3A%2F%2Fexample.com%2Fdata") = true
  /\ handleRequest (H := Sample.platform)
       (Sample.inbound
          "https://proxy.example/https%3A%2F%2Fexample.com%2Fdata" [])
     = Ok Sample.proxied_data
  /\ status Sample.proxied_data = 200%N.
Proof. repeat split; vm_compute; reflexivity. Qed.

Section SearchRedirect.
Context `{Platform}.
Import JsString RegExp.

(** C5, amended.  For every inbound request whose path is not the root
    and does not match the pattern of line 8,
    [^/https?%3A%2F%2F|^/https?:/], the handler returns a 302 response
    whose only header is [Location], with the value
    protocol [//] host [/https://www.bing.com/search?q=] followed by
    the path without its first character. *)
Theorem C5_search_redirect (request : Request) (u : URL) :
  URL_parse (req_url request) = Some u ->
  pathname u <> js "/" ->
  test path_regex (pathname u) = false ->
  handleRequest request
  = Ok {| status := 302; statusText := reason_phrase 302;
          headers :=
            {[ js "location" :=
                 [protocol u ++ js "//" ++ host u
                    ++ js "/https://www.bing.com/search?q="
                    ++ drop 1 (pathname u)] ]};
          body := NoBody |}.
Proof.
  intros Hu Hroot Htest.
  unfold handleRequest, handleRequest_outcome, handleRequest_try, URL_new.
  rewrite Hu. simpl. rewrite bool_decide_false by done.
  rewrite Htest. reflexivity.
Qed.
End SearchRedirect.

Lemma C5_search_redirect_witness :
  handleRequest (H := Sample.platform)
    (Sample.inbound "https://proxy.example/rocq%20prover" [])
  = Ok {| status := 302; statusText := js "Found";
          headers :=
            {[ js "location" :=
                 [js "https://proxy.example/https://www.bing.com/search?q=rocq%20prover"] ]};
          body := NoBody |}.
Proof.
  apply (C5_search_redirect (H := Sample.platform)
           (Sample.inbound "https://proxy.example/rocq%20prover" [])
           {| href := js "https://proxy.example/rocq%20prover";
              origin := js "https://proxy.example";
              protocol := js "https:";
              host := js "proxy.example";
              pathname := js "/rocq%20prover";
              search := [] |}).
  - vm_compute. reflexivity.
  - discriminate.
  - vm_compute. reflexivity.
Defined.

(** ** Failures *)

Section Failures.
Context `{Platform}.
Import JsString RegExp HeadersFacts.

Lemma handleRequest_caught request message :
  handleRequest_try request = Throw message ->
  handleRequest request = jsonResponse (JSON.stringify_error message) 500.
Proof.
  intros Htry. unfold handleRequest, handleRequest_outcome.
  rewrite Htry. by rewrite jsonResponse_Ok.
Qed.

Lemma handleRequest_total request : exists r, handleRequest request = Ok r.
Proof.
  unfold handleRequest, handleRequest_outcome.
  destruct (handleRequest_try request) as [[o r]|e]; [by exists r|].
  rewrite jsonResponse_Ok. by eexists.
Qed.

(** The block up to the outbound call, for a path that names a
    target. *)
Lemma handleRequest_try_forward request u target m :
  URL_parse (req_url request) = Some u ->
  pathname u <> js "/" ->
  test path_regex (pathname u) = true ->
  targetUrl u = Ok target ->
  modifiedRequest request target = Ok m ->
  handleRequest_try request
  = bind (fetch_network (sentRequest request m)) (fun response =>
      if is_redirect_status (status response) then
        bind (handleRedirect response (body response))
             (fun r => Ok (RewrittenRedirect, r))
      else
        let is_html :=
          match Headers.get (headers response) (js "Content-Type") with
          | Some t => includes t (js "text/html")
          | None => false
          end in
        bind (if is_html then
                bind (handleHtmlContent response (protocol u) (host u) target)
                     (fun text => Ok (Text text))
              else Ok (body response))
          (fun newBody =>
             bind (Response_new newBody
                     {| init_status := status response;
                        init_statusText := Some (statusText response);
                        init_response_headers := headers response |})
               (fun modifiedResponse =>
                  Ok (if is_html then RewrittenHtml else PassThrough,
                      {| status := status modifiedResponse;
                         statusText := statusText modifiedResponse;
                         headers :=
                           setCorsHeaders
                             (setNoCacheHeaders (headers modifiedResponse));
                         body := body modifiedResponse |})))).
Proof.
  intros Hu Hroot Htest Htarget Hm.
  unfold handleRequest_try, URL_new. rewrite Hu. cbn [bind].
  rewrite bool_decide_false by done. rewrite Htest. cbn [negb].
  rewrite Htarget. cbn [bind]. rewrite Hm. cbn [bind].
  reflexivity.
Qed.

(** C9.  Whatever the [try] block throws is caught at lines 79-87 and
    answered with status 500, the content type
    [application/json; charset=utf-8] and the body
    [{ error: message }] in JSON; the handler itself never throws.
    A failure of the outbound call and a redirect whose [Location] is
    missing or does not parse are such failures. *)
Theorem C9_failures_become_json_500 (request : Request) :
  (exists r, handleRequest request = Ok r)
  /\ (forall message,
       handleRequest_try request = Throw message ->
       handleRequest request
       = Ok {| status := 500; statusText := reason_phrase 500;
               headers :=
                 {[ js "content-type" :=
                      [js "application/json; charset=utf-8"] ]};
               body := Text (jsq "{~error~:" ++ JSON.quote message
                               ++ js "}") |})
  /\ (forall u target m message,
       URL_parse (req_url request) = Some u ->
       pathname u <> js "/" ->
       test path_regex (pathname u) = true ->
       targetUrl u = Ok target ->
       modifiedRequest request target = Ok m ->
       fetch_network (sentRequest request m) = Throw message ->
       handleRequest_try request = Throw message)
  /\ (forall u target m response,
       URL_parse (req_url request) = Some u ->
       pathname u <> js "/" ->
       test path_regex (pathname u) = true ->
       targetUrl u = Ok target ->
       modifiedRequest request target = Ok m ->
       fetch_network (sentRequest request m) = Ok response ->
       is_redirect_status (status response) = true ->
       URL_parse
         (default [] (Headers.get (headers response) (js "location")))
       = None ->
       handleRequest_try request
       = Throw (error_message
                  (InvalidURL
                     (default []
                        (Headers.get (headers response) (js "location")))))).
Proof.
  split; [apply handleRequest_total|]. split; [|split].
  - intros message Htry. rewrite (handleRequest_caught _ _ Htry).
    rewrite jsonResponse_Ok. by rewrite of_list_single.
  - intros u target m message Hu Hroot Htest Htarget Hm Hfetch.
    rewrite (handleRequest_try_forward _ _ _ _ Hu Hroot Htest Htarget Hm).
    by rewrite Hfetch.
  - intros u target m response Hu Hroot Htest Htarget Hm Hfetch Hred Hloc.
    rewrite (handleRequest_try_forward _ _ _ _ Hu Hroot Htest Htarget Hm).
    rewrite Hfetch. cbn [bind]. rewrite Hred.
    unfold handleRedirect, URL_new. by rewrite Hloc.
Qed.
End Failures.

(** The host [down.example] does not answer: the call fails and the
    handler returns the error response. *)
Lemma C9_failures_become_json_500_witness :
  handleRequest_try (H := Sample.platform)
    (Sample.inbound "https://proxy.example/https://down.example/" [])
  = Throw (js "Network connection lost.")
  /\ handleRequest (H := Sample.platform)
       (Sample.inbound "https://proxy.example/https://down.example/" [])
     = Ok {| status := 500; statusText := js "Internal Server Error";
             headers :=
               {[ js "content-type" :=
                    [js "application/json; charset=utf-8"] ]};
             body := Text (jsq "{~error~:~Network connection lost.~}") |}.
Proof.
  pose proof (C9_failures_become_json_500 (H := Sample.platform)
                (Sample.inbound "https://proxy.example/https://down.example/" []))
    as (_ & Hcaught & Hfetch & _).
  assert (handleRequest_try (H := Sample.platform)
            (Sample.inbound "https://proxy.example/https://down.example/" [])
          = Throw (js "Network connection lost.")) as Htry.
  { apply (Hfetch
             {| href := js "https://proxy.example/https://down.example/";
                origin := js "https://proxy.example";
                protocol := js "https:";
                host := js "proxy.example";
                pathname := js "/https://down.example/";
                search := [] |}
             (js "https://down.example/")
             {| req_url := js "https://down.example/"; method := js "GET";
                req_headers := ∅; req_body := None; redirect := Manual |});
      try (vm_compute; reflexivity). discriminate. }
  split; [exact Htry|]. exact (Hcaught _ Htry).
Defined.

(** ** Replacements

    The two global replacements of the handler are read as rewriting
    rules: [scan] produces what [rewrites] describes, the output is
    unique, and the rewriting of a text splits at every point that no
    opener can straddle. *)

Module RulesFacts.
Import JsString RegExp Rules.

Lemma strip_prefix_Some p s r : strip_prefix p s = Some r <-> s = p ++ r.
Proof.
  revert s. induction p as [|a p IH]; intros s; simpl.
  - split; [by intros [= ->] | by intros ->].
  - destruct s as [|c s]; [split; discriminate|].
    destruct (N.eqb_spec a c) as [->|Hne].
    + rewrite IH. split; [by intros -> | by intros [= ->]].
    + split; [discriminate | intros [= -> _]; done].
Qed.

Lemma strip_prefix_app p s : strip_prefix p (p ++ s) = Some s.
Proof. by apply strip_prefix_Some. Qed.

(** strip_prefix over an appended text *)
Lemma strip_prefix_extend p pre x :
  strip_prefix p (pre ++ x)
  = match strip_prefix p pre with
    | Some rest => Some (rest ++ x)
    | None =>
        if startsWith p pre then strip_prefix (drop (length pre) p) x
        else None
    end.
Proof.
  unfold startsWith.
  revert pre. induction p as [|a p IH]; intros pre; simpl.
  - done.
  - destruct pre as [|c pre]; simpl; [done|].
    destruct (N.eqb_spec a c) as [->|Hne].
    + rewrite N.eqb_refl. apply IH.
    + destruct (N.eqb_spec c a); [congruence|done].
Qed.

Lemma startsWith_length p pre :
  startsWith p pre = true -> strip_prefix p pre = None ->
  (length pre < length p)%nat.
Proof.
  unfold startsWith.
  revert pre. induction p as [|a p IH]; intros pre; simpl.
  - discriminate 2.
  - destruct pre as [|c pre]; simpl; [lia|].
    destruct (N.eqb_spec a c) as [->|Hne].
    + rewrite N.eqb_refl. intros H1 H2. specialize (IH _ H1 H2). lia.
    + destruct (N.eqb_spec c a); [congruence|discriminate].
Qed.

Lemma applies_extend r pre x :
  pre <> [] -> clear_of r x = true ->
  applies r (pre ++ x) = (fun rest => rest ++ x) <$> applies r pre.
Proof.
  intros Hpre Hclear. apply andb_prop in Hclear as [Hends Hahead].
  unfold applies. rewrite strip_prefix_extend.
  destruct (strip_prefix (opener r) pre) as [rest|] eqn:Hp.
  - replace (ahead_ok r (rest ++ x)) with (ahead_ok r rest).
    { by destruct (ahead_ok r rest). }
    destruct rest as [|d rest]; [|done]. simpl.
    unfold ahead_ok in *. by destruct (not_before r), x.
  - destruct (startsWith (opener r) pre) eqn:Hs; [|done].
    pose proof (startsWith_length _ _ Hs Hp) as Hlen.
    rewrite forallb_forall in Hends.
    specialize (Hends (length pre)).
    assert (length pre <> 0)%nat by (destruct pre; simpl; [done|lia]).
    rewrite in_seq in Hends.
    assert (negb (startsWith x (drop (length pre) (opener r))) = true) as Hn
      by (apply Hends; lia).
    unfold startsWith in Hn.
    by destruct (strip_prefix (drop (length pre) (opener r)) x).
Qed.

Lemma first_match_extend rs pre x :
  pre <> [] -> clear rs x = true ->
  first_match rs (pre ++ x)
  = (fun m => (m.1, m.2 ++ x)) <$> first_match rs pre.
Proof.
  intros Hpre. induction rs as [|r rs IH]; simpl; [done|].
  intros [Hr Hrs]%andb_prop.
  rewrite applies_extend by done.
  destruct (applies r pre); simpl; [done|]. by apply IH.
Qed.

Lemma rewrites_nil_free rs s out :
  rewrites rs s out -> first_match rs [] = None.
Proof. induction 1; done. Qed.

Lemma rewrites_app rs pre x o1 o2 :
  clear rs x = true ->
  rewrites rs pre o1 -> rewrites rs x o2 ->
  rewrites rs (pre ++ x) (o1 ++ o2).
Proof.
  intros Hclear Hpre Hx.
  induction Hpre as [Hnil|c s out Hnone _ IH|s repl rest out Hsome Hrest IH].
  - done.
  - simpl. apply rewrites_copy; [|done].
    change (c :: s ++ x) with ((c :: s) ++ x).
    rewrite first_match_extend by done. by rewrite Hnone.
  - rewrite <- app_assoc. apply rewrites_hit with (rest := rest ++ x); [|done].
    assert (s <> []) as Hs.
    { intros ->. apply rewrites_nil_free in Hrest. congruence. }
    rewrite first_match_extend by done. by rewrite Hsome.
Qed.

Lemma rewrites_unique rs s o1 o2 :
  rewrites rs s o1 -> rewrites rs s o2 -> o1 = o2.
Proof.
  intros H1. revert o2.
  induction H1 as [Hnil|c s out Hnone _ IH|s repl rest out Hsome _ IH];
    intros o2 H2; inversion H2; subst; try congruence.
  - f_equal. by apply IH.
  - assert (repl0 = repl /\ rest0 = rest) as [-> ->] by (split; congruence).
    f_equal. by apply IH.
Qed.

(** the scanner *)
Lemma scan_skip r t input k : forall s i,
  (k <= length s)%nat ->
  scan r t input i s k = scan r t input (k + i) (drop k s) 0.
Proof.
  induction k as [|k IH]; intros s i Hk; [done|].
  destruct s as [|c s]; simpl in Hk; [lia|].
  cbn [scan drop]. rewrite IH by lia. f_equal. lia.
Qed.

Lemma scan_rewrites r t rs :
  realises r t rs ->
  forall n s, (length s <= n)%nat ->
  forall input i, rewrites rs s (scan r t input i s 0).
Proof.
  intros Hreal. induction n as [|n IH]; intros s Hn input i.
  - destruct s; [|simpl in Hn; lia]. specialize (Hreal input i []).
    destruct (first_match rs []) as [[repl rest]|] eqn:Hm.
    + destruct Hreal as (len & ? & ? & _ & Hlen & _). simpl in Hlen. lia.
    + cbn [scan]. rewrite Hreal. by apply rewrites_end.
  - destruct s as [|c s].
    { apply IH. simpl; lia. }
    simpl in Hn. specialize (Hreal input i (c :: s)).
    destruct (first_match rs (c :: s)) as [[repl rest]|] eqn:Hm.
    + destruct Hreal as (len & left & caps & Hat & Hlen & -> & Hsub).
      cbn [scan]. rewrite Hat. rewrite Hsub. simpl in Hlen.
      rewrite scan_skip by lia.
      apply rewrites_hit with (rest := drop len s); [done|].
      apply IH. rewrite length_drop. lia.
    + cbn [scan]. rewrite Hreal. apply rewrites_copy; [done|].
      apply IH. lia.
Qed.

Lemma replace_all_rewrites r t rs input :
  realises r t rs -> rewrites rs input (replace_all r t input).
Proof. intros Hreal. by apply (scan_rewrites r t rs Hreal (length input)). Qed.

Section Substitution.
Variables (matched str : jsstring) (position : nat) (caps : gmap nat jsstring).

Lemma GetSubstitution_plain m l t :
  no_dollar l = true ->
  GetSubstitution matched str position m caps (l ++ t)
  = l ++ GetSubstitution matched str position m caps t.
Proof.
  induction l as [|c l IH]; [done|]. simpl.
  intros [Hc Hl]%andb_prop. rewrite Hc. f_equal. by apply IH.
Qed.

Lemma GetSubstitution_unit m c t :
  c <> code "$" ->
  GetSubstitution matched str position m caps (c :: t)
  = c :: GetSubstitution matched str position m caps t.
Proof.
  intros Hc. simpl. by rewrite (proj2 (N.eqb_neq _ _) Hc).
Qed.

Lemma GetSubstitution_ref1 t :
  GetSubstitution matched str position 2 caps (code "$" :: code "1" :: t)
  = capture caps 1 ++ GetSubstitution matched str position 2 caps t.
Proof.
  destruct t as [|d2 t]; [done|].
  cbn -[capture]. by destruct (is_digit d2).
Qed.

Lemma GetSubstitution_ref2 t :
  GetSubstitution matched str position 2 caps (code "$" :: code "2" :: t)
  = capture caps 2 ++ GetSubstitution matched str position 2 caps t.
Proof.
  destruct t as [|d2 t]; [done|].
  cbn -[capture]. by destruct (is_digit d2).
Qed.
End Substitution.

(** Write the literals of the goal as lists of code units. *)
Ltac literals :=
  repeat match goal with
    | |- context [js ?x] =>
        let v := eval vm_compute in (js x) in change (js x) with v
    | |- context [jsq ?x] =>
        let v := eval vm_compute in (jsq x) in change (jsq x) with v
    | |- context [code ?x] =>
        let v := eval vm_compute in (code x) in change (code x) with v
    end.

(** Case analysis on a prefix test of the goal; a test that computes
    to a failure closes its case. *)
Ltac split_prefix :=
  match goal with
  | |- context [strip_prefix ?p ?s] =>
      let E := fresh "E" in
      destruct (strip_prefix p s) eqn:E;
      [ first [ vm_compute in E; discriminate E
              | apply strip_prefix_Some in E; subst ]
      | ]
  end.

Lemma absolute_link_realised protocol host :
  no_dollar protocol = true -> no_dollar host = true ->
  realises absolute_link_regex
    (jsq "$1=~" ++ protocol ++ js "//" ++ host ++ js "/$2")
    (absolute_link_rules protocol host).
Proof.
  intros Hp Hh input i s.
  unfold absolute_link_rules.
  cbn [fmap list_fmap first_match applies opener ahead_ok not_before
       replacement].
  assert (forall attr scheme rest,
    (attr = js "href" \/ attr = js "src") ->
    (scheme = js "https://" \/ scheme = js "http://") ->
    exists len left caps,
      match_at absolute_link_regex i (attr ++ jsq "=~" ++ scheme ++ rest)
      = Some (S len, left, caps)
      /\ (S len <= length (attr ++ jsq "=~" ++ scheme ++ rest))%nat
      /\ rest = drop (S len) (attr ++ jsq "=~" ++ scheme ++ rest)
      /\ GetSubstitution (take (S len) (attr ++ jsq "=~" ++ scheme ++ rest))
           input i (ngroups absolute_link_regex) caps
           (jsq "$1=~" ++ protocol ++ js "//" ++ host ++ js "/$2")
         = attr ++ jsq "=~" ++ protocol ++ js "//" ++ host ++ js "/" ++ scheme)
    as Hhit.
  { intros attr scheme rest [-> | ->] [-> | ->].
    all: eexists _, rest, (<[2:=_]> (<[1:=_]> ∅)).
    all: split; [vm_compute; reflexivity|].
    all: split; [rewrite !length_app; simpl; lia|].
    all: split; [reflexivity|].
    all: change (ngroups absolute_link_regex) with 2%nat.
    all: change (jsq "$1=~") with (code "$" :: code "1" :: jsq "=~").
    all: change (js "/$2") with (js "/" ++ [code "$"; code "2"]).
    all: cbn [app]; rewrite GetSubstitution_ref1.
    all: rewrite (GetSubstitution_plain _ _ _ _ _ (jsq "=~")) by done.
    all: rewrite GetSubstitution_plain by done.
    all: rewrite (GetSubstitution_plain _ _ _ _ _ (js "//")) by done.
    all: rewrite GetSubstitution_plain by done.
    all: rewrite (GetSubstitution_plain _ _ _ _ _ (js "/")) by done.
    all: rewrite GetSubstitution_ref2.
    all: reflexivity. }
  unfold applies. cbn [opener ahead_ok not_before replacement].
  do 4 (split_prefix;
        [ rewrite <- !app_assoc; by apply Hhit; [left + right|left + right] | ]).
  clear Hhit. unfold match_at, absolute_link_regex. cbn [run accept].
  repeat split_prefix; try done; exfalso.
  all: rewrite <- ?app_assoc in *.
  all: repeat match goal with
         | H : strip_prefix _ _ = None |- _ =>
             first [ vm_compute in H; discriminate H | clear H ]
         end.
Qed.

(** Case analysis unit by unit: compare closed code units by
    computation, and a code unit of the input with a literal by cases. *)
Ltac ground_N n :=
  lazymatch n with
  | N0 => idtac
  | Npos ?p => ground_pos p
  end
with ground_pos p :=
  lazymatch p with
  | xH => idtac
  | xO ?q => ground_pos q
  | xI ?q => ground_pos q
  end.

Ltac crunch_step :=
  match goal with
  | |- context [N.eqb ?a ?b] =>
      ground_N a; ground_N b;
      let v := eval vm_compute in (N.eqb a b) in change (N.eqb a b) with v
  | |- context [match ?s with [] => _ | _ :: _ => _ end] =>
      is_var s; destruct s
  | |- context [N.eqb ?a ?c] =>
      is_var c; destruct (N.eqb_spec a c) as [<-|?];
      [|rewrite ?(proj2 (N.eqb_neq c a)) by congruence]
  | |- context [N.eqb ?c ?a] =>
      is_var c; destruct (N.eqb_spec c a) as [->|?];
      [|rewrite ?(proj2 (N.eqb_neq a c)) by congruence]
  end.

Ltac crunch :=
  repeat (cbn [run accept fmap list_fmap first_match applies opener not_before
                 replacement ahead_ok strip_prefix app existsb negb orb andb];
          try crunch_step).

Lemma relative_path_realised protocol host origin :
  no_dollar protocol = true -> no_dollar host = true ->
  no_dollar origin = true ->
  realises relative_path_regex
    (js "$1" ++ protocol ++ js "//" ++ host ++ js "/" ++ origin ++ js "/")
    (relative_path_rules protocol host origin).
Proof.
  intros Hp Hh Ho input i s.
  unfold relative_path_rules, match_at, relative_path_regex, dquote.
  change (ngroups _) with 2%nat.
  change (js "$1") with [code "$"; code "1"].
  set (g := GetSubstitution).
  literals.
  cbn [fmap list_fmap first_match]. unfold applies.
  crunch.
  all: try reflexivity.
  all: try congruence.
  all: eexists _, _, _.
  all: (split; [reflexivity|]).
  all: (split; [simpl; lia|]).
  all: (split; [reflexivity|]).
  all: subst g.
  all: rewrite (GetSubstitution_ref1 _ _ _ _ (protocol ++ _)).
  all: repeat first [ rewrite GetSubstitution_plain by done
                    | rewrite GetSubstitution_unit by done ].
  all: reflexivity.
Qed.

Section Replace.
Variables (r : regex) (t : jsstring) (rs : list rule).
Hypothesis Hreal : realises r t rs.

Lemma replace_all_app pre x :
  clear rs x = true ->
  replace_all r t (pre ++ x) = replace_all r t pre ++ replace_all r t x.
Proof.
  intros Hclear. apply (rewrites_unique rs (pre ++ x)).
  - by apply replace_all_rewrites.
  - apply rewrites_app; [done| |]; by apply replace_all_rewrites.
Qed.

Lemma replace_all_hit s repl rest :
  first_match rs s = Some (repl, rest) ->
  replace_all r t s = repl ++ replace_all r t rest.
Proof.
  intros Hm. apply (rewrites_unique rs s).
  - by apply replace_all_rewrites.
  - apply rewrites_hit with (rest := rest); [done|].
    by apply replace_all_rewrites.
Qed.

Lemma replace_all_copy c s :
  first_match rs (c :: s) = None ->
  replace_all r t (c :: s) = c :: replace_all r t s.
Proof.
  intros Hm. apply (rewrites_unique rs (c :: s)).
  - by apply replace_all_rewrites.
  - apply rewrites_copy; [done|]. by apply replace_all_rewrites.
Qed.

End Replace.

End RulesFacts.

(** ** Link rewriting *)

Import JsString RegExp Rules RulesFacts.

Section LinkRewriting.
Variables protocol host origin : jsstring.
Hypothesis Hprotocol : no_dollar protocol = true.
Hypothesis Hhost : no_dollar host = true.
Hypothesis Horigin : no_dollar origin = true.

Lemma abs_real :
  realises absolute_link_regex
    (jsq "$1=~" ++ protocol ++ js "//" ++ host ++ js "/$2")
    (absolute_link_rules protocol host).
Proof. by apply absolute_link_realised. Qed.

Lemma rel_real :
  realises relative_path_regex
    (js "$1" ++ protocol ++ js "//" ++ host ++ js "/" ++ origin ++ js "/")
    (relative_path_rules protocol host origin).
Proof. by apply relative_path_realised. Qed.





(** Compute the prefix tests of the goal. *)
Ltac eval_prefixes :=
  repeat match goal with
    | |- context [strip_prefix ?p ?s] =>
        let v := eval vm_compute in (strip_prefix p s) in
        change (strip_prefix p s) with v
    end.

Lemma relative_path_prefixed pre attr q rest :
  In attr [js "href"; js "src"; js "action"] ->
  In q [dquote; code "'"] ->
  startsWith rest (js "/") = false ->
  replaceRelativePaths (pre ++ attr ++ js "=" ++ [q] ++ js "/" ++ rest)
    protocol host origin
  = replaceRelativePaths pre protocol host origin
    ++ attr ++ js "=" ++ [q] ++ protocol ++ js "//" ++ host ++ js "/"
    ++ origin ++ js "/"
    ++ replaceRelativePaths rest protocol host origin.
Proof.
  intros Hattr Hq Hrest. unfold replaceRelativePaths.
  rewrite (replace_all_app _ _ _ rel_real).
  - f_equal.
    rewrite (replace_all_hit _ _ _ rel_real _
               (attr ++ js "=" ++ [q] ++ protocol ++ js "//" ++ host ++ js "/"
                  ++ origin ++ js "/") rest).
    + by rewrite <- !app_assoc.
    + simpl in Hattr, Hq.
      destruct rest as [|d rest'].
      { destruct Hattr as [<-|[<-|[<-|[]]]]; destruct Hq as [<-|[<-|[]]];
          vm_compute; reflexivity. }
      assert (N.eqb 47 d = false) as Hd.
      { unfold startsWith in Hrest. change (js "/") with [47%N] in Hrest.
        cbn [strip_prefix] in Hrest. by destruct (N.eqb 47 d). }
      destruct Hattr as [<-|[<-|[<-|[]]]]; destruct Hq as [<-|[<-|[]]].
      all: unfold relative_path_rules; cbn [fmap list_fmap first_match].
      all: unfold applies; cbn [opener not_before replacement].
      all: eval_prefixes; cbn [ahead_ok not_before].
      all: change (code "/") with 47%N; rewrite Hd; reflexivity.
  - simpl in Hattr, Hq.
    destruct rest as [|d rest'].
    { destruct Hattr as [<-|[<-|[<-|[]]]]; destruct Hq as [<-|[<-|[]]];
        vm_compute; reflexivity. }
    destruct Hattr as [<-|[<-|[<-|[]]]]; destruct Hq as [<-|[<-|[]]];
      vm_compute; reflexivity.
Qed.






(** *** The inserted prefix is left alone by the second replacement *)







End LinkRewriting.

(** *** Absolute links *)



(** *** Root-relative links *)

(** C4, counterexample.  For the image of the specification the handler
    returns the link with one slash after the origin, not two: the slash
    that the pattern matched is replaced together with the opener. *)
Lemma C4_single_slash_after_origin :
  replaceRelativePaths (jsq "<img src=~/logo.png~>")
    (js "https:") (js "proxy.example") (js "https://example.com")
  = jsq "<img src=~https://proxy.example/https://example.com/logo.png~>"
  /\ jsq "<img src=~https://proxy.example/https://example.com/logo.png~>"
     <> jsq "<img src=~https://proxy.example/https://example.com//logo.png~>".
Proof. split; [vm_compute; reflexivity | vm_compute; discriminate]. Qed.

(** C4, amended.  Wherever [href=], [src=] or [action=], a double or
    single quote and a slash that is not followed by a second slash occur
    in the text, [replaceRelativePaths] replaces the slash by protocol
    [//] host [/] origin [/]: the path follows the origin after a single
    slash.  The text before and the text after are rewritten on their
    own.  The protocol, the host and the origin are taken to be free of
    the dollar sign. *)
Theorem C4_relative_paths_prefixed
        (protocol host origin pre attr rest : jsstring) (q : N) :
  no_dollar protocol = true -> no_dollar host = true ->
  no_dollar origin = true ->
  In attr [js "href"; js "src"; js "action"] ->
  In q [dquote; code "'"] ->
  startsWith rest (js "/") = false ->
  replaceRelativePaths (pre ++ attr ++ js "=" ++ [q] ++ js "/" ++ rest)
    protocol host origin
  = replaceRelativePaths pre protocol host origin
    ++ attr ++ js "=" ++ [q] ++ protocol ++ js "//" ++ host ++ js "/"
    ++ origin ++ js "/"
    ++ replaceRelativePaths rest protocol host origin.
Proof. intros. by apply relative_path_prefixed. Qed.

Lemma C4_relative_paths_prefixed_witness :
  replaceRelativePaths (jsq "<img src=~/logo.png~>")
    (js "https:") (js "proxy.example") (js "https://example.com")
  = jsq "<img src=~https://proxy.example/https://example.com/logo.png~>".
Proof.
  change (jsq "<img src=~/logo.png~>")
    with (js "<img " ++ js "src" ++ js "=" ++ [dquote] ++ js "/"
            ++ jsq "logo.png~>").
  rewrite (C4_relative_paths_prefixed
             (js "https:") (js "proxy.example") (js "https://example.com")
             (js "<img ") (js "src") (jsq "logo.png~>") dquote).
  - vm_compute. reflexivity.
  - vm_compute. reflexivity.
  - vm_compute. reflexivity.
  - vm_compute. reflexivity.
  - right. left. reflexivity.
  - left. reflexivity.
  - vm_compute. reflexivity.
Defined.

(** ** Percent-encoding *)

Module URIFacts.
Import URI.
Local Open Scope N_scope.

Ltac Zify.zify_post_hook ::= Z.to_euclidean_division_equations.

(** Decide the comparisons of the goal by arithmetic. *)
Ltac compare_all :=
  repeat match goal with
    | |- context [N.ltb ?a ?b] => destruct (N.ltb_spec a b); try lia
    | |- context [N.leb ?a ?b] => destruct (N.leb_spec a b); try lia
    | |- context [N.eqb ?a ?b] => destruct (N.eqb_spec a b); try lia
    end;
  cbn [andb orb negb].

Lemma hex_value_digit d : d < 16 -> hex_value (hex_digit d) = Some d.
Proof.
  intros Hd. unfold hex_value, hex_digit.
  compare_all; f_equal; lia.
Qed.

Lemma items_unit c rest :
  c <> 37 -> items (c :: rest) = cons (Unit c) <$> items rest.
Proof.
  intros Hc. cbn [items]. change (code "%") with 37.
  by rewrite (proj2 (N.eqb_neq _ _) Hc).
Qed.

Lemma items_percent b rest :
  b < 256 -> items (percent b ++ rest) = cons (Octet b) <$> items rest.
Proof.
  intros Hb. unfold percent. cbn [app items].
  change (code "%") with 37. cbn [N.eqb Pos.eqb negb].
  rewrite !hex_value_digit by lia.
  by replace (16 * (b / 16) + b mod 16) with b by lia.
Qed.

Lemma items_escape cp rest :
  cp < 1114112 ->
  items (escape cp ++ rest) = app (Octet <$> utf8_octets cp) <$> items rest.
Proof.
  intros Hcp. unfold escape, utf8_octets.
  compare_all; cbn [List.map concat fmap list_fmap app];
    rewrite <- ?app_assoc; rewrite ?items_percent by lia;
    change ([] ++ rest) with rest; by destruct (items rest).
Qed.

Lemma decode_items_octet b t :
  decode_items (Octet b :: t)
  = if b <? 128 then cons b <$> decode_items t
    else if b <? 192 then None
    else if b <? 224 then
      match t with
      | Octet b2 :: t' =>
          if is_continuation b2 then
            u ← scalar 128 ((b - 192) * 64 + (b2 - 128));
            app u <$> decode_items t'
          else None
      | _ => None
      end
    else if b <? 240 then
      match t with
      | Octet b2 :: Octet b3 :: t' =>
          if is_continuation b2 && is_continuation b3 then
            u ← scalar 2048
                  ((b - 224) * 4096 + (b2 - 128) * 64 + (b3 - 128));
            app u <$> decode_items t'
          else None
      | _ => None
      end
    else if b <? 248 then
      match t with
      | Octet b2 :: Octet b3 :: Octet b4 :: t' =>
          if is_continuation b2 && is_continuation b3
             && is_continuation b4 then
            u ← scalar 65536
                  ((b - 240) * 262144 + (b2 - 128) * 4096
                   + (b3 - 128) * 64 + (b4 - 128));
            app u <$> decode_items t'
          else None
      | _ => None
      end
    else None.
Proof. reflexivity. Qed.

Lemma decode_octets cp rest :
  cp < 1114112 -> ~ (55296 <= cp <= 57343) ->
  decode_items ((Octet <$> utf8_octets cp) ++ rest)
  = app (utf16_units cp) <$> decode_items rest.
Proof.
  intros Hcp Hsur. unfold utf8_octets.
  compare_all; cbn [fmap list_fmap app]; rewrite decode_items_octet;
    compare_all; cbv beta iota; unfold is_continuation; compare_all.
  all: try match goal with
         | |- context [scalar ?lo ?v] => replace v with cp by lia
         end.
  all: unfold scalar, utf16_units; compare_all.
  all: cbn [mbind option_bind]; by destruct (decode_items rest).
Qed.

Lemma utf16_pair c d :
  55296 <= c <= 56319 -> 56320 <= d <= 57343 ->
  utf16_units ((c - 55296) * 1024 + (d - 56320) + 65536) = [c; d].
Proof.
  intros Hc Hd. unfold utf16_units. compare_all. f_equal; [|f_equal]; lia.
Qed.

Lemma unreserved_not_percent c : is_unreserved c = true -> c <> 37.
Proof. by intros Hc ->. Qed.

Lemma round_trip_length n : forall s enc,
  (length s <= n)%nat -> well_formed s ->
  encodeURIComponent s = Some enc ->
  exists l, items enc = Some l /\ decode_items l = Some s.
Proof.
  induction n as [|n IH]; intros s enc Hn Hwf Henc.
  - destruct s; [|simpl in Hn; lia]. injection Henc as <-. by exists [].
  - destruct s as [|c s]; [injection Henc as <-; by exists []|].
    simpl in Hn. apply Forall_cons in Hwf as [Hc Hwf].
    cbn [encodeURIComponent] in Henc.
    destruct (is_unreserved c) eqn:Hun.
    { destruct (encodeURIComponent s) as [enc'|] eqn:Hs; [|done].
      injection Henc as <-.
      destruct (IH s enc') as (l & Hl & Hd); [lia|done|done|].
      exists (Unit c :: l). rewrite items_unit, Hl
        by by apply unreserved_not_percent.
      split; [done|]. cbn [decode_items]. by rewrite Hd. }
    unfold is_low_surrogate, is_high_surrogate in Henc.
    destruct (N.leb_spec 56320 c), (N.leb_spec c 57343),
      (N.leb_spec 55296 c), (N.leb_spec c 56319);
      cbn [andb] in Henc; try done; try lia.
    all: lazymatch type of Henc with
         | context [match ?x with [] => _ | _ :: _ => _ end] =>
             (* a high surrogate, which needs a low one next *)
             destruct s as [|d s]; [done|]; simpl in Hn;
             apply Forall_cons in Hwf as [Hd Hwf];
             destruct (N.leb_spec 56320 d), (N.leb_spec d 57343);
             cbn [andb] in Henc; try done
         | _ => idtac
         end.
    all: destruct (encodeURIComponent s) as [enc'|] eqn:Hs; [|done].
    all: injection Henc as <-.
    all: destruct (IH s enc') as (l & Hl & Hdec); [lia|done|done|].
    all: eexists; rewrite items_escape, Hl by lia; (split; [done|]).
    all: rewrite decode_octets, Hdec by lia.
    all: first [ by rewrite utf16_pair by lia
               | unfold utf16_units; by compare_all ].
Qed.

(** Decoding undoes encoding, for every string of 16-bit code units that
    can be encoded. *)
Lemma decode_encode s enc :
  well_formed s ->
  encodeURIComponent s = Some enc -> decodeURIComponent enc = Some s.
Proof.
  intros Hwf Henc.
  destruct (round_trip_length (length s) s enc) as (l & Hl & Hd); [done..|].
  unfold decodeURIComponent. by rewrite Hl.
Qed.
End URIFacts.

(** ** The charset marker *)

Lemma startsWith_app p s : startsWith (p ++ s) p = true.
Proof. unfold startsWith. by rewrite strip_prefix_app. Qed.

Lemma index_of_unfold p s :
  index_of p s
  = if startsWith s p then Some 0%nat
    else match s with
         | [] => None
         | _ :: s' => S <$> index_of p s'
         end.
Proof. by destruct s. Qed.

Lemma includes_app a p b : includes (a ++ p ++ b) p = true.
Proof.
  unfold includes. induction a as [|c a IH]; rewrite index_of_unfold.
  - cbn [app]. by rewrite startsWith_app.
  - destruct (startsWith ((c :: a) ++ p ++ b) p); [done|]. cbn [app].
    by destruct (index_of p (a ++ p ++ b)).
Qed.

Lemma includes_tail c s p : includes (c :: s) p = false -> includes s p = false.
Proof.
  unfold includes. rewrite (index_of_unfold p (c :: s)).
  destruct (startsWith (c :: s) p); [done|].
  by destruct (index_of p s).
Qed.

(** [index_of] finds the first occurrence. *)
Lemma index_of_first p s i :
  index_of p s = Some i ->
  startsWith (drop i s) p = true
  /\ forall j, (j < i)%nat -> startsWith (drop j s) p = false.
Proof.
  revert i. induction s as [|c s IH]; intros i; cbn [index_of].
  - destruct (startsWith [] p) eqn:Hp; [|done].
    intros [= <-]. split; [done|lia].
  - destruct (startsWith (c :: s) p) eqn:Hp.
    + intros [= <-]. split; [done|lia].
    + destruct (index_of p s) as [k|]; [|done]. intros [= <-].
      destruct (IH k eq_refl) as [Hk Hlt]. split; [done|].
      intros [|j] Hj; [done|]. apply Hlt. lia.
Qed.

Lemma replace_first_plain p t s i :
  no_dollar t = true -> index_of p s = Some i ->
  replace_first p t s = take i s ++ t ++ drop (i + length p) s.
Proof.
  intros Ht Hi. unfold replace_first. rewrite Hi.
  rewrite <- (app_nil_r t) at 1.
  rewrite GetSubstitution_plain by done. cbn [GetSubstitution].
  by rewrite app_nil_r.
Qed.

Section Marker.
Variables protocol host origin : jsstring.
Hypothesis Hprotocol : no_dollar protocol = true.
Hypothesis Hhost : no_dollar host = true.
Hypothesis Horigin : no_dollar origin = true.

Lemma rewriteLinks_marker pre rest :
  rewriteLinks (pre ++ js "charset=utf-8" ++ rest) protocol host origin
  = rewriteLinks pre protocol host origin
    ++ js "charset=utf-8"
    ++ rewriteLinks rest protocol host origin.
Proof.
  pose proof (abs_real protocol host Hprotocol Hhost) as Habs.
  pose proof (rel_real protocol host origin Hprotocol Hhost Horigin) as Hrel.
  unfold rewriteLinks, prefixAbsoluteLinks.
  rewrite (replace_all_app _ _ _ Habs) by (vm_compute; reflexivity).
  assert (replace_all absolute_link_regex
            (jsq "$1=~" ++ protocol ++ js "//" ++ host ++ js "/$2")
            (js "charset=utf-8" ++ rest)
          = js "charset=utf-8"
            ++ replace_all absolute_link_regex
                 (jsq "$1=~" ++ protocol ++ js "//" ++ host ++ js "/$2") rest)
    as ->.
  { literals; cbn [app].
    repeat (rewrite (replace_all_copy _ _ _ Habs) by (vm_compute; reflexivity)).
    reflexivity. }
  unfold replaceRelativePaths.
  rewrite (replace_all_app _ _ _ Hrel) by (vm_compute; reflexivity).
  f_equal. literals; cbn [app].
  repeat (rewrite (replace_all_copy _ _ _ Hrel) by (vm_compute; reflexivity)).
  reflexivity.
Qed.
End Marker.

(** ** The rewritten [Location] *)

(** C7, counterexample.  The sample site redirects to
    [https://example.com].  The parsed URL is written with its path,
    [https://example.com/], and that is what the handler encodes:
    decoding the new [Location] after its first slash gives a text that
    differs from the header of the target. *)
Lemma C7_location_is_normalised :
  handleRedirect (H := Sample.platform)
    {| status := 302; statusText := js "Found";
       headers := Headers.of_list [(js "location", js "https://example.com")];
       body := NoBody |} NoBody
  = Ok {| status := 302; statusText := js "Found";
          headers := Headers.of_list
                       [(js "Location", js "/https%3A%2F%2Fexample.com%2F")];
          body := NoBody |}
  /\ URI.decodeURIComponent (js "https%3A%2F%2Fexample.com%2F")
     = Some (js "https://example.com/")
  /\ js "https://example.com/" <> js "https://example.com".
Proof.
  split; [vm_compute; reflexivity|].
  split; [vm_compute; reflexivity | vm_compute; discriminate].
Qed.

Section Location.
Context `{Platform}.
Import HeadersFacts.

Lemma Response_new_redirect b init :
  is_redirect_status (init_status init) = true ->
  exists r, Response_new b init = Ok r.
Proof.
  intros Hs. unfold Response_new.
  assert (In (init_status init) [301; 302; 303; 307; 308]%N) as Hin.
  { unfold is_redirect_status in Hs. apply existsb_exists in Hs as (x & Hx & E).
    apply N.eqb_eq in E. by subst. }
  simpl in Hin.
  destruct Hin as [<-|[<-|[<-|[<-|[<-|[]]]]]];
    cbn [negb andb N.leb]; by destruct b; eexists.
Qed.

(** C7, amended.  For every redirect response whose [Location] header
    parses as a URL, [handleRedirect] returns a response whose [Location]
    is a slash followed by the percent-encoding of the parsed URL as
    [toString] writes it, and percent-decoding the value after the slash
    gives that text back.  The text is the original header when the
    header was written in that form already, as
    [https://example.com/bar] is. *)
Theorem C7_location_round_trip (response : Response) (b : Body)
        (location : URL) (encoded : jsstring) :
  is_redirect_status (status response) = true ->
  URL_parse (default [] (Headers.get (headers response) (js "location")))
  = Some location ->
  URI.well_formed (href location) ->
  URI.encodeURIComponent (href location) = Some encoded ->
  (exists r,
     handleRedirect response b = Ok r
     /\ Headers.get (headers r) (js "Location") = Some (js "/" ++ encoded))
  /\ URI.decodeURIComponent encoded = Some (href location).
Proof.
  intros Hstatus Hparse Hwf Henc. split.
  - assert (exists r, handleRedirect response b = Ok r) as [r Hr].
    { unfold handleRedirect, URL_new, encodeURIComponent.
      rewrite Hparse. cbn [bind]. rewrite Henc. cbn [bind].
      by apply Response_new_redirect. }
    exists r. split; [done|].
    apply handleRedirect_Ok in Hr
      as (_ & _ & _ & (location' & encoded' & Hp & He & Hget) & _).
    congruence.
  - by apply URIFacts.decode_encode.
Qed.
End Location.

(** The redirect of the specification: the header is in the form in
    which URLs are written, and comes back from the round trip. *)
Lemma C7_location_round_trip_witness :
  (exists r,
     handleRedirect (H := Sample.platform)
       {| status := 302; statusText := js "Found";
          headers := Headers.of_list
                       [(js "location", js "https://example.com/bar")];
          body := NoBody |} NoBody = Ok r
     /\ Headers.get (headers r) (js "Location")
        = Some (js "/" ++ js "https%3A%2F%2Fexample.com%2Fbar"))
  /\ URI.decodeURIComponent (js "https%3A%2F%2Fexample.com%2Fbar")
     = Some (js "https://example.com/bar").
Proof.
  apply (C7_location_round_trip (H := Sample.platform)
           {| status := 302; statusText := js "Found";
              headers := Headers.of_list
                           [(js "location", js "https://example.com/bar")];
              body := NoBody |} NoBody
           {| href := js "https://example.com/bar";
              origin := js "https://example.com";
              protocol := js "https:";
              host := js "example.com";
              pathname := js "/bar";
              search := [] |}).
  - vm_compute. reflexivity.
  - vm_compute. reflexivity.
  - unfold URI.well_formed. cbn [href].
    apply Forall_forall. intros c Hc.
    apply list_elem_of_In in Hc. vm_compute in Hc.
    repeat (destruct Hc as [<-|Hc]; [reflexivity|]). destruct Hc.
  - vm_compute. reflexivity.
Defined.

(** ** The declared charset *)

(** C8, counterexample.  A body of ASCII bytes that names the marker
    twice: the second marker is still in the text that the handler
    returns. *)
Lemma C8_second_marker_stays :
  includes
    (utf8_decode (Platform := Sample.platform)
       (js "<meta charset=gb2312><p>charset=gb2312</p>"))
    (js "charset=gb2312") = true
  /\ handleHtmlContent (H := Sample.platform)
       {| status := 200; statusText := js "OK";
          headers := Headers.of_list [(js "content-type", js "text/html")];
          body := Stream (js "<meta charset=gb2312><p>charset=gb2312</p>") |}
       (js "https:") (js "proxy.example") (js "https://example.com/")
     = Ok (js "<meta charset=utf-8><p>charset=gb2312</p>")
  /\ includes (js "<meta charset=utf-8><p>charset=gb2312</p>")
       (js "charset=gb2312") = true.
Proof. repeat split; vm_compute; reflexivity. Qed.

Section Charset.
Context `{Platform}.

(** C8, amended.  For every HTML response body whose UTF-8 decoding
    contains [charset=gb2312], the handler decodes the same bytes again
    with the GB2312 codec; when the text so decoded contains the marker,
    its first occurrence is replaced by [charset=utf-8], and the text
    that [handleHtmlContent] returns contains [charset=utf-8].  Other
    occurrences of the marker are rewritten like any other text.  The
    protocol, the host and the origin are taken to be free of the dollar
    sign. *)
Theorem C8_first_marker_replaced (response : Response)
        (protocol host actualUrlStr : jsstring) (target : URL) (i : nat) :
  URL_parse actualUrlStr = Some target ->
  no_dollar protocol = true -> no_dollar host = true ->
  no_dollar (origin target) = true ->
  includes (utf8_decode (arrayBuffer response)) (js "charset=gb2312") = true ->
  index_of (js "charset=gb2312") (gb2312_decode (arrayBuffer response))
  = Some i ->
  (startsWith (drop i (gb2312_decode (arrayBuffer response)))
     (js "charset=gb2312") = true
   /\ forall j, (j < i)%nat ->
        startsWith (drop j (gb2312_decode (arrayBuffer response)))
          (js "charset=gb2312") = false)
  /\ decodeHtml (arrayBuffer response)
     = take i (gb2312_decode (arrayBuffer response))
       ++ js "charset=utf-8"
       ++ drop (i + 14) (gb2312_decode (arrayBuffer response))
  /\ exists text,
       handleHtmlContent response protocol host actualUrlStr = Ok text
       /\ text = rewriteLinks (decodeHtml (arrayBuffer response))
                   protocol host (origin target)
       /\ includes text (js "charset=utf-8") = true.
Proof.
  intros Hparse Hp Hh Ho Hutf Hi.
  assert (decodeHtml (arrayBuffer response)
          = take i (gb2312_decode (arrayBuffer response))
            ++ js "charset=utf-8"
            ++ drop (i + 14) (gb2312_decode (arrayBuffer response))) as Hdec.
  { unfold decodeHtml. rewrite Hutf.
    by rewrite (replace_first_plain _ _ _ i). }
  split; [by apply index_of_first|]. split; [done|].
  eexists. split; [|split; [reflexivity|]].
  - unfold handleHtmlContent, URL_new. by rewrite Hparse.
  - rewrite Hdec. rewrite rewriteLinks_marker by done.
    apply includes_app.
Qed.
End Charset.

(** A body of ASCII bytes with one declaration. *)
Lemma C8_first_marker_replaced_witness :
  handleHtmlContent (H := Sample.platform)
    {| status := 200; statusText := js "OK";
       headers := Headers.of_list [(js "content-type", js "text/html")];
       body := Stream (js "<meta charset=gb2312><p>x</p>") |}
    (js "https:") (js "proxy.example") (js "https://example.com/")
  = Ok (js "<meta charset=utf-8><p>x</p>")
  /\ includes (js "<meta charset=utf-8><p>x</p>") (js "charset=utf-8") = true.
Proof.
  destruct (C8_first_marker_replaced (H := Sample.platform)
              {| status := 200; statusText := js "OK";
                 headers := Headers.of_list
                              [(js "content-type", js "text/html")];
                 body := Stream (js "<meta charset=gb2312><p>x</p>") |}
              (js "https:") (js "proxy.example") (js "https://example.com/")
              {| href := js "https://example.com/";
                 origin := js "https://example.com";
                 protocol := js "https:";
                 host := js "example.com";
                 pathname := js "/";
                 search := [] |} 6)
    as (_ & _ & text & Hrun & Htext & Hinc);
    [vm_compute; reflexivity..|].
  assert (text = js "<meta charset=utf-8><p>x</p>") as ->.
  { rewrite Htext. vm_compute. reflexivity. }
  split; [exact Hrun | exact Hinc].
Defined.

(** ** Quotes *)


Section Across.
Variables (r : regex) (tpl : jsstring) (rs : list rule).
Hypothesis Hreal : realises r tpl rs.
Variables (marks : list jsstring) (c : N).
Hypothesis Hshape :
  Forall (fun r => exists a d q b,
            [d; q] ∈ marks /\ opener r = a ++ [d; q] ++ b
            /\ (c ∉ a) /\ d <> c) rs.

End Across.



Section SingleQuoted.
Variables protocol host origin : jsstring.
Hypothesis Hprotocol : no_dollar protocol = true.
Hypothesis Hhost : no_dollar host = true.
Hypothesis Horigin : no_dollar origin = true.


End SingleQuoted.




(* ================================================================== *)
(** * Part III: further properties of the handler                      *)
(* ================================================================== *)

(** ** The target pattern *)

Lemma strip_prefix_cat a b s :
  strip_prefix (a ++ b) s
  = match strip_prefix a s with
    | Some s' => strip_prefix b s'
    | None => None
    end.
Proof.
  revert s. induction a as [|c a IH]; intros s; [done|].
  destruct s as [|d s]; cbn [app strip_prefix]; [done|].
  by destruct (N.eqb c d).
Qed.

(** The pattern of line 8 is anchored: it does not match after the
    start of the path. *)
Lemma path_regex_anchored s : forall i,
  search_from path_regex (S i) s = false.
Proof.
  induction s as [|c s IH]; intros i.
  - reflexivity.
  - cbn [search_from]. rewrite IH.
    unfold match_at, path_regex. cbn [run]. reflexivity.
Qed.

(** X1.  The test of line 17 is a test of the start of the path: the
    pattern of line 8 matches exactly the paths that start with
    [/http%3A%2F%2F], [/https%3A%2F%2F], [/http:/] or [/https:/].  The
    escapes are matched in upper case only, and one slash after the colon
    is enough. *)
Theorem X1_path_regex_is_prefix_test (p : jsstring) :
  test path_regex p = existsb (startsWith p) target_prefixes.
Proof.
  unfold test.
  assert (search_from path_regex 0 p
          = match match_at path_regex 0 p with
            | Some _ => true
            | None => false
            end) as ->.
  { destruct p as [|c p]; cbn [search_from].
    - by destruct (match_at _ _ _).
    - rewrite path_regex_anchored. by destruct (match_at _ _ _). }
  unfold match_at, path_regex, target_prefixes, startsWith.
  cbn [run existsb Nat.add Nat.eqb accept].
  change (js "/http%3A%2F%2F") with (js "/http" ++ js "%3A%2F%2F").
  change (js "/https%3A%2F%2F") with (js "/http" ++ js "s" ++ js "%3A%2F%2F").
  change (js "/http:/") with (js "/http" ++ js ":/").
  change (js "/https:/") with (js "/http" ++ js "s" ++ js ":/").
  rewrite !strip_prefix_cat.
  destruct (strip_prefix (js "/http") p) as [s1|]; [|reflexivity].
  rewrite !strip_prefix_cat.
  destruct (strip_prefix (js "s") s1) as [s2|] eqn:E2.
  - apply strip_prefix_Some in E2 as ->.
    change (strip_prefix (js "%3A%2F%2F") (js "s" ++ s2)) with (@None jsstring).
    change (strip_prefix (js ":/") (js "s" ++ s2)) with (@None jsstring).
    destruct (strip_prefix (js "%3A%2F%2F") s2), (strip_prefix (js ":/") s2);
      reflexivity.
  - destruct (strip_prefix (js "%3A%2F%2F") s1), (strip_prefix (js ":/") s1);
      reflexivity.
Qed.

Lemma root_is_no_target p : test path_regex p = true -> p <> js "/".
Proof. by intros Ht ->. Qed.

(** ** The alphabet of an encoded component *)

Module EncodingFacts.
Import URI URIFacts.
Local Open Scope N_scope.

Lemma hex_digit_unreserved d : d < 16 -> is_unreserved (hex_digit d) = true.
Proof.
  intros Hd. unfold is_unreserved, is_alpha, is_decimal, hex_digit.
  compare_all; reflexivity.
Qed.

Lemma percent_units b rest :
  b < 256 ->
  Forall (fun c => is_component_unit c = true) rest ->
  Forall (fun c => is_component_unit c = true) (percent b ++ rest).
Proof.
  intros Hb Hrest. unfold percent. cbn [app].
  repeat apply Forall_cons_2; [done| | |done].
  all: unfold is_component_unit; rewrite hex_digit_unreserved; [done|lia].
Qed.

Lemma escape_units cp rest :
  cp < 1114112 ->
  Forall (fun c => is_component_unit c = true) rest ->
  Forall (fun c => is_component_unit c = true) (escape cp ++ rest).
Proof.
  intros Hcp Hrest. unfold escape, utf8_octets.
  compare_all; cbn [List.map concat app]; rewrite <- ?app_assoc;
    repeat (apply percent_units; [lia|]); done.
Qed.

Lemma encode_units_length n : forall s enc,
  (length s <= n)%nat -> well_formed s ->
  encodeURIComponent s = Some enc ->
  Forall (fun c => is_component_unit c = true) enc.
Proof.
  induction n as [|n IH]; intros s enc Hn Hwf Henc.
  - destruct s; [|simpl in Hn; lia]. by injection Henc as <-.
  - destruct s as [|c s]; [by injection Henc as <-|].
    simpl in Hn. apply Forall_cons in Hwf as [Hc Hwf].
    cbn [encodeURIComponent] in Henc.
    destruct (is_unreserved c) eqn:Hun.
    { destruct (encodeURIComponent s) as [enc'|] eqn:Hs; [|done].
      injection Henc as <-. apply Forall_cons_2.
      - unfold is_component_unit. by rewrite Hun.
      - apply (IH s); [lia|done..]. }
    unfold is_low_surrogate, is_high_surrogate in Henc.
    destruct (N.leb_spec 56320 c), (N.leb_spec c 57343),
      (N.leb_spec 55296 c), (N.leb_spec c 56319);
      cbn [andb] in Henc; try done; try lia.
    all: lazymatch type of Henc with
         | context [match ?x with [] => _ | _ :: _ => _ end] =>
             destruct s as [|d s]; [done|]; simpl in Hn;
             apply Forall_cons in Hwf as [Hd Hwf];
             destruct (N.leb_spec 56320 d), (N.leb_spec d 57343);
             cbn [andb] in Henc; try done
         | _ => idtac
         end.
    all: destruct (encodeURIComponent s) as [enc'|] eqn:Hs; [|done].
    all: injection Henc as <-.
    all: apply escape_units; [lia|].
    all: apply (IH s); [lia|done..].
Qed.

(** An encoded component is made of unreserved code units and percent
    signs. *)
Lemma encode_units s enc :
  well_formed s -> encodeURIComponent s = Some enc ->
  Forall (fun c => is_component_unit c = true) enc.
Proof. intros. by apply (encode_units_length (length s) s). Qed.

(** The encoding of a text that starts with a scheme. *)
Lemma encode_scheme t enc :
  startsWith t (js "http://") || startsWith t (js "https://") = true ->
  encodeURIComponent t = Some enc ->
  startsWith enc (js "http%3A%2F%2F") || startsWith enc (js "https%3A%2F%2F")
  = true.
Proof.
  unfold startsWith. intros Hs Henc.
  destruct (strip_prefix (js "http://") t) as [rest|] eqn:E1.
  - apply strip_prefix_Some in E1 as ->.
    change (js "http://") with [104; 116; 116; 112; 58; 47; 47] in Henc.
    cbn in Henc.
    destruct (encodeURIComponent rest) as [e|]; [|done].
    injection Henc as <-. reflexivity.
  - destruct (strip_prefix (js "https://") t) as [rest|] eqn:E2; [|done].
    apply strip_prefix_Some in E2 as ->.
    change (js "https://") with [104; 116; 116; 112; 115; 58; 47; 47] in Henc.
    cbn in Henc.
    destruct (encodeURIComponent rest) as [e|]; [|done].
    injection Henc as <-. reflexivity.
Qed.

End EncodingFacts.

(** A path that is a slash and a URL with a scheme, written as it is or
    encoded, is accepted by the pattern of line 8. *)
Lemma literal_path_is_target t :
  startsWith t (js "http://") || startsWith t (js "https://") = true ->
  test path_regex (js "/" ++ t) = true.
Proof.
  unfold startsWith. intros Hs.
  destruct (strip_prefix (js "http://") t) as [rest|] eqn:E1.
  - apply strip_prefix_Some in E1 as ->. vm_compute. reflexivity.
  - destruct (strip_prefix (js "https://") t) as [rest|] eqn:E2; [|done].
    apply strip_prefix_Some in E2 as ->. vm_compute. reflexivity.
Qed.

Lemma encoded_path_is_target t enc :
  startsWith t (js "http://") || startsWith t (js "https://") = true ->
  URI.encodeURIComponent t = Some enc ->
  test path_regex (js "/" ++ enc) = true.
Proof.
  intros Hscheme Henc.
  pose proof (EncodingFacts.encode_scheme _ _ Hscheme Henc) as Hs.
  unfold startsWith in Hs.
  destruct (strip_prefix (js "http%3A%2F%2F") enc) as [e|] eqn:E1.
  - apply strip_prefix_Some in E1 as ->. vm_compute. reflexivity.
  - destruct (strip_prefix (js "https%3A%2F%2F") enc) as [e|] eqn:E2; [|done].
    apply strip_prefix_Some in E2 as ->. vm_compute. reflexivity.
Qed.

(** ** The landing page and the target URL *)

Lemma replace_first_slash t : replace_first (js "/") [] (js "/" ++ t) = t.
Proof. reflexivity. Qed.

(** A text without a percent sign decodes to itself. *)
Lemma decode_plain t :
  Forall (fun c => c <> code "%") t -> URI.decodeURIComponent t = Some t.
Proof.
  unfold URI.decodeURIComponent. intros Ht.
  assert (URI.items t = Some (URI.Unit <$> t)) as ->.
  { induction Ht as [|c t Hc _ IH]; [done|].
    cbn [URI.items]. rewrite (proj2 (N.eqb_neq _ _) Hc). cbn [negb].
    by rewrite IH. }
  cbn [mbind option_bind]. clear Ht.
  induction t as [|c t IH]; [done|].
  cbn [fmap list_fmap URI.decode_items].
  change (URI.decode_items (list_fmap _ _ URI.Unit t))
    with (URI.decode_items (URI.Unit <$> t)).
  by rewrite IH.
Qed.

Section Target.
Context `{Platform}.

(** Lines 28-34 for a path whose tail decodes to a URL with a scheme. *)
Lemma targetUrl_decoded (u : URL) (raw t : jsstring) :
  pathname u = js "/" ++ raw ->
  URI.decodeURIComponent raw = Some t ->
  startsWith t (js "http://") || startsWith t (js "https://") = true ->
  targetUrl u = Ok (t ++ search u).
Proof.
  intros Hp Hd Hs. unfold targetUrl, decodeURIComponent.
  rewrite Hp, replace_first_slash, Hd. cbn [bind].
  unfold ensureProtocol. by rewrite Hs.
Qed.

(** X2.  A request for the root path is answered with the bundled page,
    status 200 with the status text that the runtime gives to it, and
    the content type [text/html; charset=utf-8] as the only header,
    whatever its method, headers, body and query are. *)
Theorem X2_landing_page (request : Request) (u : URL) :
  URL_parse (req_url request) = Some u ->
  pathname u = js "/" ->
  handleRequest request
  = Ok {| status := 200; statusText := reason_phrase 200;
          headers := {[ js "content-type" := [js "text/html; charset=utf-8"] ]};
          body := Text defaultHtml |}.
Proof.
  intros Hu Hp.
  unfold handleRequest, handleRequest_outcome, handleRequest_try, URL_new.
  rewrite Hu. cbn [bind]. rewrite bool_decide_true by done.
  reflexivity.
Qed.

(** X3.  When the path is a slash followed by a URL that starts with
    [http://] or [https://] and has no percent sign, the pattern of line
    8 accepts it and the target of lines 28-34 is that URL followed by
    the query of the request. *)
Theorem X3_target_of_literal_path (u : URL) (t : jsstring) :
  pathname u = js "/" ++ t ->
  Forall (fun c => c <> code "%") t ->
  startsWith t (js "http://") || startsWith t (js "https://") = true ->
  test path_regex (pathname u) = true
  /\ targetUrl u = Ok (t ++ search u).
Proof.
  intros Hp Ht Hs. split.
  - rewrite Hp. by apply literal_path_is_target.
  - apply (targetUrl_decoded u t t); [done| |done]. by apply decode_plain.
Qed.

(** X4.  When the path is a slash followed by the percent-encoding of a
    URL that starts with [http://] or [https://], the pattern of line 8
    accepts it and the target of lines 28-34 is that URL followed by the
    query of the request. *)
Theorem X4_target_of_encoded_path (u : URL) (t enc : jsstring) :
  URI.well_formed t ->
  URI.encodeURIComponent t = Some enc ->
  pathname u = js "/" ++ enc ->
  startsWith t (js "http://") || startsWith t (js "https://") = true ->
  test path_regex (pathname u) = true
  /\ targetUrl u = Ok (t ++ search u).
Proof.
  intros Hwf Henc Hp Hs. split.
  - rewrite Hp. by apply (encoded_path_is_target t).
  - apply (targetUrl_decoded u enc t); [done| |done].
    by apply URIFacts.decode_encode.
Qed.

(** X5.  A path that matches the pattern but whose tail is not a valid
    percent-encoding is answered with status 500 and the message of the
    [URIError] as a JSON error. *)
Theorem X5_malformed_escape_is_500 (request : Request) (u : URL)
        (raw : jsstring) :
  URL_parse (req_url request) = Some u ->
  pathname u = js "/" ++ raw ->
  test path_regex (pathname u) = true ->
  URI.decodeURIComponent raw = None ->
  handleRequest request
  = Ok {| status := 500; statusText := reason_phrase 500;
          headers :=
            {[ js "content-type" := [js "application/json; charset=utf-8"] ]};
          body := Text (JSON.stringify_error (error_message URIMalformed)) |}.
Proof.
  intros Hu Hp Ht Hd.
  unfold handleRequest, handleRequest_outcome, handleRequest_try, URL_new.
  rewrite Hu. cbn [bind].
  rewrite bool_decide_false by by apply root_is_no_target.
  rewrite Ht. cbn [negb].
  unfold targetUrl, decodeURIComponent.
  rewrite Hp, replace_first_slash, Hd. reflexivity.
Qed.

End Target.

(** The root path with a query. *)
Lemma X2_landing_page_witness :
  handleRequest (H := Sample.platform)
    (Sample.inbound "https://proxy.example/?q=1" [(js "accept", js "*/*")])
  = Ok {| status := 200; statusText := js "OK";
          headers := {[ js "content-type" := [js "text/html; charset=utf-8"] ]};
          body := Text (jsq "<!DOCTYPE html><title>proxy</title>") |}.
Proof.
  apply (X2_landing_page (H := Sample.platform) _
           {| href := js "https://proxy.example/?q=1";
              origin := js "https://proxy.example";
              protocol := js "https:";
              host := js "proxy.example";
              pathname := js "/";
              search := js "?q=1" |}).
  - vm_compute. reflexivity.
  - reflexivity.
Defined.

Lemma X3_target_of_literal_path_witness :
  test path_regex (js "/https://example.com/a") = true
  /\ targetUrl (H := Sample.platform)
       {| href := js "http://proxy.example/https://example.com/a?x=1";
          origin := js "http://proxy.example";
          protocol := js "http:";
          host := js "proxy.example";
          pathname := js "/https://example.com/a";
          search := js "?x=1" |}
     = Ok (js "https://example.com/a?x=1").
Proof.
  apply (X3_target_of_literal_path (H := Sample.platform)
           {| href := js "http://proxy.example/https://example.com/a?x=1";
              origin := js "http://proxy.example";
              protocol := js "http:";
              host := js "proxy.example";
              pathname := js "/https://example.com/a";
              search := js "?x=1" |} (js "https://example.com/a")).
  - reflexivity.
  - apply (bool_decide_unpack _). vm_compute. exact I.
  - vm_compute. reflexivity.
Defined.

Lemma X4_target_of_encoded_path_witness :
  test path_regex (js "/https%3A%2F%2Fexample.com%2Fa%20b") = true
  /\ targetUrl (H := Sample.platform)
       {| href := js "http://proxy.example/https%3A%2F%2Fexample.com%2Fa%20b?x=1";
          origin := js "http://proxy.example";
          protocol := js "http:";
          host := js "proxy.example";
          pathname := js "/https%3A%2F%2Fexample.com%2Fa%20b";
          search := js "?x=1" |}
     = Ok (js "https://example.com/a b?x=1").
Proof.
  apply (X4_target_of_encoded_path (H := Sample.platform)
           {| href := js "http://proxy.example/https%3A%2F%2Fexample.com%2Fa%20b?x=1";
              origin := js "http://proxy.example";
              protocol := js "http:";
              host := js "proxy.example";
              pathname := js "/https%3A%2F%2Fexample.com%2Fa%20b";
              search := js "?x=1" |} (js "https://example.com/a b")
           (js "https%3A%2F%2Fexample.com%2Fa%20b")).
  - apply (bool_decide_unpack _). vm_compute. exact I.
  - vm_compute. reflexivity.
  - reflexivity.
  - vm_compute. reflexivity.
Defined.

(** A percent sign at the end of the path. *)
Lemma X5_malformed_escape_is_500_witness :
  handleRequest (H := Sample.platform)
    (Sample.inbound "https://proxy.example/https://example.com/100%" [])
  = Ok {| status := 500; statusText := js "Internal Server Error";
          headers :=
            {[ js "content-type" := [js "application/json; charset=utf-8"] ]};
          body := Text (jsq "{~error~:~URI malformed~}") |}.
Proof.
  apply (X5_malformed_escape_is_500 (H := Sample.platform) _
           {| href := js "https://proxy.example/https://example.com/100%";
              origin := js "https://proxy.example";
              protocol := js "https:";
              host := js "proxy.example";
              pathname := js "/https://example.com/100%";
              search := [] |}
           (js "https://example.com/100%")).
  - vm_compute. reflexivity.
  - reflexivity.
  - vm_compute. reflexivity.
  - vm_compute. reflexivity.
Defined.

(** X6.  With the protocol of a request, [http:] or [https:], the result
    of [ensureProtocol] starts with [http://] or [https://], and applying
    the function again changes nothing. *)
Theorem X6_ensureProtocol_gives_scheme (url defaultProtocol : jsstring) :
  defaultProtocol = js "http:" \/ defaultProtocol = js "https:" ->
  (startsWith (ensureProtocol url defaultProtocol) (js "http://")
   || startsWith (ensureProtocol url defaultProtocol) (js "https://")) = true
  /\ ensureProtocol (ensureProtocol url defaultProtocol) defaultProtocol
     = ensureProtocol url defaultProtocol.
Proof.
  intros Hp.
  assert ((startsWith (ensureProtocol url defaultProtocol) (js "http://")
           || startsWith (ensureProtocol url defaultProtocol) (js "https://"))
          = true) as Hs.
  { unfold ensureProtocol.
    destruct (startsWith url (js "http://") || startsWith url (js "https://"))
      eqn:E; [done|].
    destruct Hp as [-> | ->]; reflexivity. }
  split; [done|].
  unfold ensureProtocol at 1. by rewrite Hs.
Qed.

Lemma X6_ensureProtocol_gives_scheme_witness :
  (startsWith (ensureProtocol (js "example.com/a") (js "https:")) (js "http://")
   || startsWith (ensureProtocol (js "example.com/a") (js "https:"))
        (js "https://")) = true
  /\ ensureProtocol (ensureProtocol (js "example.com/a") (js "https:"))
       (js "https:")
     = ensureProtocol (js "example.com/a") (js "https:").
Proof.
  apply (X6_ensureProtocol_gives_scheme (js "example.com/a") (js "https:")).
  right. reflexivity.
Defined.

(** ** Header lists *)

Module HeaderListFacts.
Import JsString HeadersFacts Headers.

Lemma values_of_cons k kv l :
  values_of k (kv :: l)
  = (if decide (lower kv.1 = k) then [kv.2] else []) ++ values_of k l.
Proof. reflexivity. Qed.

Lemma values_of_app k l1 l2 :
  values_of k (l1 ++ l2) = values_of k l1 ++ values_of k l2.
Proof. unfold values_of. apply bind_app. Qed.

Lemma lookup_foldl_append (l : list (jsstring * jsstring)) :
  forall (h : Headers) k,
    foldl (fun h kv => append h kv.1 kv.2) h l !! k
    = match values_of k l with
      | [] => h !! k
      | vs => Some (default [] (h !! k) ++ vs)
      end.
Proof.
  induction l as [|kv l IH]; intros h k; [done|].
  cbn [foldl]. rewrite IH. unfold append.
  rewrite values_of_cons. case_decide as E.
  - rewrite <- E, lookup_insert_eq. cbn [default app].
    destruct (values_of (lower kv.1) l) as [|v vs]; [done|].
    unfold id. by rewrite <- app_assoc.
  - rewrite lookup_insert_ne by done.
    by destruct (values_of k l).
Qed.

(** A list made from pairs holds, for each name, the values given for
    it. *)
Lemma lookup_of_list (l : list (jsstring * jsstring)) k :
  of_list l !! k = match values_of k l with [] => None | vs => Some vs end.
Proof.
  unfold of_list. rewrite lookup_foldl_append, lookup_empty.
  by destruct (values_of k l).
Qed.

Lemma of_list_wf (l : list (jsstring * jsstring)) : wf (of_list l).
Proof.
  intros name vs Hl. split.
  - destruct (of_list_names l name) as (kv & _ & ->); [by rewrite Hl|].
    apply lower_idemp.
  - rewrite lookup_of_list in Hl. by destruct (values_of name l); simplify_eq.
Qed.

Lemma set_wf (h : Headers) name value : wf h -> wf (set h name value).
Proof.
  intros Hwf k vs. unfold set.
  destruct (decide (lower name = k)) as [<-|Hne].
  - rewrite lookup_insert_eq. intros [= <-]. split; [apply lower_idemp|done].
  - rewrite lookup_insert_ne by done. apply Hwf.
Qed.

Lemma append_wf (h : Headers) name value : wf h -> wf (append h name value).
Proof.
  intros Hwf k vs. unfold append.
  destruct (decide (lower name = k)) as [<-|Hne].
  - rewrite lookup_insert_eq. intros [= <-]. split; [apply lower_idemp|].
    by destruct (default [] _).
  - rewrite lookup_insert_ne by done. apply Hwf.
Qed.

(** What one name of a header list gives to the values of [k] after
    the iteration and the filter. *)
Lemma values_of_entry (f : jsstring -> bool) k
      (kv : jsstring * list jsstring) :
  lower kv.1 = kv.1 ->
  values_of k
    (List.filter (fun e : jsstring * jsstring => f e.1)
       (if bool_decide (lower kv.1 = js "set-cookie")
        then (fun v => (lower kv.1, v)) <$> kv.2
        else [(lower kv.1, join (js ", ") kv.2)]))
  = if decide (kv.1 = k) then
      if f k then
        if bool_decide (k = js "set-cookie") then kv.2
        else [join (js ", ") kv.2]
      else []
    else [].
Proof.
  intros Hl. rewrite Hl. destruct kv as [n vs]. cbn [fst snd] in *.
  case_bool_decide as Hc.
  - induction vs as [|v vs IH]; cbn [fmap list_fmap List.filter fst].
    + case_decide as E; [|done]. subst k.
      rewrite bool_decide_true by done. by destruct (f n).
    + destruct (f n) eqn:Hf.
      * rewrite values_of_cons, IH. cbn [fst snd]. rewrite Hl.
        case_decide as E; [|done]. subst k. rewrite Hf.
        by rewrite bool_decide_true.
      * rewrite IH. case_decide as E; [|done]. subst k. by rewrite Hf.
  - cbn [List.filter fst]. destruct (f n) eqn:Hf.
    + rewrite values_of_cons. cbn [fst snd values_of mbind list_bind app].
      rewrite Hl.
      case_decide as E; [|done]. subst k. rewrite Hf.
      by rewrite bool_decide_false.
    + case_decide as E; [|done]. subst k. by rewrite Hf.
Qed.

Lemma values_of_absent (f : jsstring -> bool) k
      (l : list (jsstring * list jsstring)) :
  Forall (fun kv => lower kv.1 = kv.1) l -> k ∉ l.*1 ->
  values_of k
    (List.filter (fun e : jsstring * jsstring => f e.1)
       (l ≫= fun kv =>
          if bool_decide (lower kv.1 = js "set-cookie")
          then (fun v => (lower kv.1, v)) <$> kv.2
          else [(lower kv.1, join (js ", ") kv.2)]))
  = [].
Proof.
  intros Hlow. induction Hlow as [|kv l Hkv _ IH]; intros Hk; [done|].
  rewrite fmap_cons in Hk. apply not_elem_of_cons in Hk as [Hne Hk].
  rewrite bind_cons, List.filter_app, values_of_app, values_of_entry by done.
  rewrite IH by done. by rewrite decide_False.
Qed.

Lemma values_of_present (f : jsstring -> bool) k vs
      (l : list (jsstring * list jsstring)) :
  Forall (fun kv => lower kv.1 = kv.1) l -> NoDup l.*1 -> (k, vs) ∈ l ->
  values_of k
    (List.filter (fun e : jsstring * jsstring => f e.1)
       (l ≫= fun kv =>
          if bool_decide (lower kv.1 = js "set-cookie")
          then (fun v => (lower kv.1, v)) <$> kv.2
          else [(lower kv.1, join (js ", ") kv.2)]))
  = if f k then
      if bool_decide (k = js "set-cookie") then vs else [join (js ", ") vs]
    else [].
Proof.
  intros Hlow. induction Hlow as [|kv l Hkv Hlow IH]; intros Hnd Hin.
  { by apply elem_of_nil in Hin. }
  rewrite fmap_cons in Hnd. apply NoDup_cons in Hnd as [Hnotin Hnd].
  rewrite bind_cons, List.filter_app, values_of_app, values_of_entry by done.
  apply elem_of_cons in Hin as [<-|Hin].
  - cbn [fst snd] in *. rewrite decide_True by done.
    rewrite values_of_absent by done. by rewrite app_nil_r.
  - rewrite IH by done. rewrite decide_False; [done|].
    intros E. apply Hnotin. rewrite E.
    by apply (list_elem_of_fmap_2 fst) in Hin.
Qed.

(** The header list that [filterHeaders] builds: the names that pass the
    filter, each with its values in one, except for [set-cookie], whose
    values stay apart. *)
Lemma lookup_filterHeaders (h : Headers) (f : jsstring -> bool) k :
  wf h ->
  filterHeaders h f !! k
  = match h !! k with
    | Some vs =>
        if f k then
          Some (if bool_decide (k = js "set-cookie") then vs
                else [join (js ", ") vs])
        else None
    | None => None
    end.
Proof.
  intros Hwf. unfold filterHeaders. rewrite lookup_of_list.
  unfold entries.
  assert (sorted h ≡ₚ map_to_list h) as Hperm
    by apply merge_sort_Permutation.
  assert (Forall (fun kv : jsstring * list jsstring => lower kv.1 = kv.1)
            (sorted h)) as Hlow.
  { apply Forall_forall. intros [n vs] Hin. rewrite Hperm in Hin.
    apply elem_of_map_to_list in Hin. by destruct (Hwf _ _ Hin). }
  destruct (h !! k) as [vs|] eqn:Hk.
  - rewrite (values_of_present f k vs); [|done| |].
    + destruct (f k); [|done]. case_bool_decide; [|done].
      destruct vs; [|done]. by destruct (Hwf _ _ Hk).
    + rewrite Hperm. apply NoDup_fst_map_to_list.
    + rewrite Hperm. by apply elem_of_map_to_list.
  - rewrite values_of_absent; [done..|].
    intros Hin. apply list_elem_of_fmap in Hin as ([n vs] & -> & Hin).
    rewrite Hperm in Hin.
    apply elem_of_map_to_list in Hin. cbn [fst] in Hk. congruence.
Qed.

End HeaderListFacts.

(** X7.  [filterHeaders] keeps the headers whose name passes the filter,
    each with the value it had, and drops the others.  The filter sees
    the names in lower case, so the filter of line 37 drops a header
    [CF-Ray] as it drops [cf-ray]. *)
Theorem X7_filterHeaders_keeps_what_passes (h : Headers)
        (f : jsstring -> bool) (name : jsstring) :
  Headers.wf h ->
  Headers.get (filterHeaders h f) name
  = if f (lower name) then Headers.get h name else None.
Proof.
  intros Hwf. unfold Headers.get.
  rewrite HeaderListFacts.lookup_filterHeaders by done.
  destruct (h !! lower name) as [vs|]; [|by destruct (f _)].
  destruct (f (lower name)); [|done].
  by case_bool_decide.
Qed.

Lemma X7_filterHeaders_keeps_what_passes_witness :
  Headers.wf
    (Headers.of_list [(js "CF-Ray", js "8f1"); (js "Accept", js "*/*")])
  /\ Headers.get
       (filterHeaders
          (Headers.of_list [(js "CF-Ray", js "8f1"); (js "Accept", js "*/*")])
          not_edge_header) (js "CF-Ray")
     = None.
Proof.
  split; [apply HeaderListFacts.of_list_wf|].
  rewrite (X7_filterHeaders_keeps_what_passes
             (Headers.of_list
                [(js "CF-Ray", js "8f1"); (js "Accept", js "*/*")])
             not_edge_header (js "CF-Ray")).
  - vm_compute. reflexivity.
  - apply HeaderListFacts.of_list_wf.
Defined.

(** X8.  [setNoCacheHeaders] and [setCorsHeaders] together set four
    headers, replacing what the target sent under these names, and leave
    every other header as it was. *)
Theorem X8_finalizer_touches_four_names (h : Headers) (name : jsstring) :
  Headers.get (setCorsHeaders (setNoCacheHeaders h)) name
  = if decide (lower name = js "cache-control") then Some (js "no-store")
    else if decide (lower name = js "access-control-allow-origin")
         then Some (js "*")
    else if decide (lower name = js "access-control-allow-methods")
         then Some (js "GET, POST, PUT, DELETE")
    else if decide (lower name = js "access-control-allow-headers")
         then Some (js "*")
    else Headers.get h name.
Proof.
  unfold setCorsHeaders, setNoCacheHeaders. rewrite !HeadersFacts.get_set.
  change (lower (js "Access-Control-Allow-Headers"))
    with (js "access-control-allow-headers").
  change (lower (js "Access-Control-Allow-Methods"))
    with (js "access-control-allow-methods").
  change (lower (js "Access-Control-Allow-Origin"))
    with (js "access-control-allow-origin").
  change (lower (js "Cache-Control")) with (js "cache-control").
  repeat case_decide; try congruence.
  all: exfalso.
  all: repeat match goal with
         | E : lower ?n = _ |- _ => rewrite E in *; clear E
         end.
  all: match goal with
       | E : js _ = js _ |- _ => vm_compute in E; discriminate E
       | E : js ?a <> js ?a |- _ => by destruct E
       end.
Qed.

(** ** Forwarding *)

Section Forwarding.
Context `{Platform}.
Import HeadersFacts.

Lemma Response_new_valid b init r :
  Response_new b init = Ok r ->
  (200 <= status r <= 599)%N
  /\ has_body (body r) && is_null_body_status (status r) = false.
Proof.
  unfold Response_new.
  destruct ((200 <=? init_status init)%N && (init_status init <=? 599)%N)
    eqn:Hrange; [|discriminate].
  cbn [negb].
  destruct (has_body b && is_null_body_status (init_status init)
            && negb (is_empty_text b)); [discriminate|].
  intros [= <-]. cbn [status body].
  apply andb_prop in Hrange as [H1 H2].
  apply N.leb_le in H1. apply N.leb_le in H2. split; [done|].
  destruct (is_null_body_status (init_status init)); [done|].
  apply andb_false_r.
Qed.

Lemma Response_new_accepts b init :
  (200 <= init_status init <= 599)%N ->
  has_body b && is_null_body_status (init_status init) = false ->
  Response_new b init
  = Ok {| status := init_status init;
          statusText :=
            default (reason_phrase (init_status init)) (init_statusText init);
          headers :=
            match b, Headers.get (init_response_headers init)
                       (js "content-type") with
            | Text _, None =>
                Headers.append (init_response_headers init)
                  (js "content-type") (js "text/plain;charset=UTF-8")
            | _, _ => init_response_headers init
            end;
          body := b |}.
Proof.
  intros [H1 H2] Hnull. unfold Response_new.
  apply N.leb_le in H1. apply N.leb_le in H2.
  rewrite H1, H2, Hnull. cbn [negb andb].
  destruct (is_null_body_status (init_status init)); [|done].
  by destruct b.
Qed.

Lemma Response_new_out_of_range b init :
  (init_status init < 200 \/ 599 < init_status init)%N ->
  Response_new b init = throw (StatusOutOfRange (init_status init)).
Proof.
  intros Hs. unfold Response_new.
  replace ((200 <=? init_status init)%N && (init_status init <=? 599)%N)
    with false; [done|].
  symmetry. apply andb_false_iff.
  destruct Hs; [left; by apply N.leb_gt | right; by apply N.leb_gt].
Qed.

(** The request of line 40, when its construction succeeds. *)
Lemma modifiedRequest_parsed request target m :
  modifiedRequest request target = Ok m ->
  exists parsed, URL_parse target = Some parsed /\ req_url m = href parsed
    /\ method m = method request /\ req_body m = req_body request
    /\ redirect m = Manual.
Proof.
  unfold modifiedRequest, Request_new, URL_new. intros Hm.
  destruct (URL_parse target) as [parsed|]; [|discriminate].
  cbn [bind outbound_init init_method init_body init_redirect init_headers
       default] in Hm.
  destruct (is_get_or_head _ && _); [discriminate|].
  injection Hm as <-. by exists parsed.
Qed.

Lemma redirect_status_cases s :
  is_redirect_status s = true -> In s [301; 302; 303; 307; 308]%N.
Proof.
  unfold is_redirect_status. intros Hs.
  apply existsb_exists in Hs as (x & Hx & E).
  apply N.eqb_eq in E. by subst.
Qed.

(** X9.  The request that reaches the network goes to the target as the
    URL parser writes it, with the method and the body of the inbound
    request, and asks that redirects are not followed: the options of
    line 51 replace the headers only. *)
Theorem X9_outbound_request_shape (request : Request) (target : jsstring)
        (m : Request) :
  modifiedRequest request target = Ok m ->
  exists parsed,
    URL_parse target = Some parsed
    /\ req_url (sentRequest request m) = href parsed
    /\ method (sentRequest request m) = method request
    /\ req_body (sentRequest request m) = req_body request
    /\ redirect (sentRequest request m) = Manual.
Proof.
  intros Hm.
  destruct (modifiedRequest_parsed _ _ _ Hm) as (parsed & ? & ? & ? & ? & ?).
  by exists parsed.
Qed.

(** X10.  An answer of the target that is neither a redirect nor HTML is
    passed on with its status, status text and body, and with its
    headers after [setNoCacheHeaders] and [setCorsHeaders].  The answer
    has a status that the response constructor accepts, no body when the
    status allows none, and a body that is a byte stream or null, as the
    answers of the network are. *)
Theorem X10_pass_through (request : Request) (u : URL) (target : jsstring)
        (m : Request) (response : Response) :
  URL_parse (req_url request) = Some u ->
  test path_regex (pathname u) = true ->
  targetUrl u = Ok target ->
  modifiedRequest request target = Ok m ->
  fetch_network (sentRequest request m) = Ok response ->
  is_redirect_status (status response) = false ->
  (200 <= status response <= 599)%N ->
  has_body (body response) && is_null_body_status (status response) = false ->
  (forall ct, Headers.get (headers response) (js "Content-Type") = Some ct ->
              includes ct (js "text/html") = false) ->
  (forall s, body response <> Text s) ->
  handleRequest request
  = Ok {| status := status response;
          statusText := statusText response;
          headers := setCorsHeaders (setNoCacheHeaders (headers response));
          body := body response |}.
Proof.
  intros Hu Ht Htarget Hm Hfetch Hred Hrange Hnull Hct Hbody.
  unfold handleRequest, handleRequest_outcome.
  rewrite (handleRequest_try_forward _ _ _ _ Hu (root_is_no_target _ Ht)
             Ht Htarget Hm).
  rewrite Hfetch. cbn [bind]. rewrite Hred.
  assert (match Headers.get (headers response) (js "Content-Type") with
          | Some t => includes t (js "text/html")
          | None => false
          end = false) as ->.
  { destruct (Headers.get _ _) as [ct|] eqn:E; [by apply Hct|done]. }
  cbn [bind]. rewrite Response_new_accepts by done. cbn.
  destruct (body response) as [| |s] eqn:Hb; try done.
  by destruct (Hbody s).
Qed.

(** X11.  An HTML answer of the target that is not a redirect is
    returned with its status, status text and headers, the latter after
    [setNoCacheHeaders] and [setCorsHeaders], and with the text of
    [handleHtmlContent] as its body: the decoded body with both
    replacements applied, for the protocol and host of the proxy and the
    origin of the target.  The target parses at line 134 because it
    parsed at line 40. *)
Theorem X11_html_is_rewritten (request : Request) (u : URL)
        (target : jsstring) (m : Request) (response : Response)
        (ct : jsstring) :
  URL_parse (req_url request) = Some u ->
  test path_regex (pathname u) = true ->
  targetUrl u = Ok target ->
  modifiedRequest request target = Ok m ->
  fetch_network (sentRequest request m) = Ok response ->
  is_redirect_status (status response) = false ->
  (200 <= status response <= 599)%N ->
  is_null_body_status (status response) = false ->
  Headers.get (headers response) (js "Content-Type") = Some ct ->
  includes ct (js "text/html") = true ->
  exists parsed,
    URL_parse target = Some parsed
    /\ handleRequest request
       = Ok {| status := status response;
               statusText := statusText response;
               headers := setCorsHeaders (setNoCacheHeaders (headers response));
               body := Text (rewriteLinks (decodeHtml (arrayBuffer response))
                               (protocol u) (host u) (origin parsed)) |}.
Proof.
  intros Hu Ht Htarget Hm Hfetch Hred Hrange Hnull Hct Hhtml.
  destruct (modifiedRequest_parsed _ _ _ Hm) as (parsed & Hparsed & _).
  exists parsed. split; [done|].
  unfold handleRequest, handleRequest_outcome.
  rewrite (handleRequest_try_forward _ _ _ _ Hu (root_is_no_target _ Ht)
             Ht Htarget Hm).
  rewrite Hfetch. cbn [bind]. rewrite Hred, Hct, Hhtml.
  unfold handleHtmlContent, URL_new. rewrite Hparsed. cbn [bind].
  rewrite Response_new_accepts; cbn [init_status init_statusText
                                     init_response_headers]; [|done|].
  - change (Headers.get (headers response) (js "content-type"))
      with (Headers.get (headers response) (js "Content-Type")).
    by rewrite Hct.
  - by rewrite Hnull, andb_false_r.
Qed.

(** X12.  An HTML answer of the target with the status 204, 205 or 304
    has no body.  The text that [handleHtmlContent] makes of it is
    empty, and the response constructor of the runtime takes the empty
    string as no body: the answer is passed on with its status and
    status text, with its headers after [setNoCacheHeaders] and
    [setCorsHeaders], and without a body.  The decoder is taken to
    decode no bytes to the empty text. *)
Theorem X12_html_without_body_is_passed_on (request : Request) (u : URL)
        (target : jsstring) (m : Request) (response : Response)
        (ct : jsstring) :
  URL_parse (req_url request) = Some u ->
  test path_regex (pathname u) = true ->
  targetUrl u = Ok target ->
  modifiedRequest request target = Ok m ->
  fetch_network (sentRequest request m) = Ok response ->
  In (status response) [204; 205; 304]%N ->
  body response = NoBody ->
  utf8_decode [] = [] ->
  Headers.get (headers response) (js "Content-Type") = Some ct ->
  includes ct (js "text/html") = true ->
  handleRequest request
  = Ok {| status := status response;
          statusText := statusText response;
          headers := setCorsHeaders (setNoCacheHeaders (headers response));
          body := NoBody |}.
Proof.
  intros Hu Ht Htarget Hm Hfetch Hs Hbody Hdecode Hct Hhtml.
  destruct (modifiedRequest_parsed _ _ _ Hm) as (parsed & Hparsed & _).
  unfold handleRequest, handleRequest_outcome.
  rewrite (handleRequest_try_forward _ _ _ _ Hu (root_is_no_target _ Ht)
             Ht Htarget Hm).
  rewrite Hfetch. cbn [bind].
  assert (is_redirect_status (status response) = false) as ->.
  { simpl in Hs. destruct Hs as [<-|[<-|[<-|[]]]]; reflexivity. }
  rewrite Hct, Hhtml.
  unfold handleHtmlContent, URL_new. rewrite Hparsed. cbn [bind].
  assert (decodeHtml (arrayBuffer response) = []) as ->.
  { unfold arrayBuffer, decodeHtml. by rewrite Hbody, Hdecode. }
  assert (rewriteLinks [] (protocol u) (host u) (origin parsed) = []) as ->
    by reflexivity.
  unfold Response_new. cbn [init_status init_statusText default].
  simpl in Hs. destruct Hs as [<-|[<-|[<-|[]]]]; reflexivity.
Qed.

(** X13.  An answer of the target with a status below 200 or above 599
    cannot be passed on: the response constructor refuses the status,
    and the handler answers with status 500. *)
Theorem X13_status_out_of_range_is_500 (request : Request) (u : URL)
        (target : jsstring) (m : Request) (response : Response) :
  URL_parse (req_url request) = Some u ->
  test path_regex (pathname u) = true ->
  targetUrl u = Ok target ->
  modifiedRequest request target = Ok m ->
  fetch_network (sentRequest request m) = Ok response ->
  (status response < 200 \/ 599 < status response)%N ->
  handleRequest request
  = Ok {| status := 500; statusText := reason_phrase 500;
          headers :=
            {[ js "content-type" := [js "application/json; charset=utf-8"] ]};
          body := Text (JSON.stringify_error
                          (error_message
                             (StatusOutOfRange (status response)))) |}.
Proof.
  intros Hu Ht Htarget Hm Hfetch Hs.
  destruct (modifiedRequest_parsed _ _ _ Hm) as (parsed & Hparsed & _).
  unfold handleRequest, handleRequest_outcome.
  rewrite (handleRequest_try_forward _ _ _ _ Hu (root_is_no_target _ Ht)
             Ht Htarget Hm).
  rewrite Hfetch. cbn [bind].
  assert (is_redirect_status (status response) = false) as ->.
  { destruct (is_redirect_status (status response)) eqn:E; [|done].
    apply redirect_status_cases in E. simpl in E.
    destruct E as [E|[E|[E|[E|[E|[]]]]]]; rewrite <- E in Hs; lia. }
  destruct (match Headers.get (headers response) (js "Content-Type") with
            | Some t => includes t (js "text/html")
            | None => false
            end).
  - unfold handleHtmlContent, URL_new. rewrite Hparsed. cbn [bind].
    by rewrite Response_new_out_of_range.
  - cbn [bind]. by rewrite Response_new_out_of_range.
Qed.

(** X14.  Whatever the handler returns has a status from 200 to 599
    and, with the status 204, 205 or 304, no body. *)
Theorem X14_returned_response_is_constructible (request : Request)
        (r : Response) :
  handleRequest request = Ok r ->
  (200 <= status r <= 599)%N
  /\ has_body (body r) && is_null_body_status (status r) = false.
Proof.
  unfold handleRequest, handleRequest_outcome. intros Hr.
  destruct (handleRequest_try request) as [[o r']|e] eqn:Htry.
  - cbn in Hr. injection Hr as ->. unfold handleRequest_try in Htry.
    bind_inv Htry. case_bool_decide.
    { bind_inv Htry. injection Htry as _ <-. by eapply Response_new_valid. }
    destruct (negb _).
    { bind_inv Htry. injection Htry as _ <-. by eapply Response_new_valid. }
    do 3 bind_inv Htry.
    destruct (is_redirect_status _).
    { bind_inv Htry. injection Htry as _ <-.
      unfold handleRedirect in Ha3. do 2 bind_inv Ha3.
      by eapply Response_new_valid. }
    do 2 bind_inv Htry. injection Htry as _ <-. cbn [status body].
    by eapply Response_new_valid.
  - rewrite jsonResponse_Ok in Hr. cbn in Hr. by injection Hr as <-.
Qed.

End Forwarding.

Lemma X9_outbound_request_shape_witness :
  exists parsed,
    URL_parse (Platform := Sample.platform) (js "https://example.com/data")
    = Some parsed
    /\ req_url
         (sentRequest
            (Sample.inbound "https://proxy.example/https://example.com/data"
               [(js "accept", js "*/*")])
            {| req_url := js "https://example.com/data"; method := js "GET";
               req_headers := Headers.of_list [(js "accept", js "*/*")];
               req_body := None; redirect := Manual |})
       = href parsed
    /\ method
         (sentRequest
            (Sample.inbound "https://proxy.example/https://example.com/data"
               [(js "accept", js "*/*")])
            {| req_url := js "https://example.com/data"; method := js "GET";
               req_headers := Headers.of_list [(js "accept", js "*/*")];
               req_body := None; redirect := Manual |})
       = js "GET"
    /\ req_body
         (sentRequest
            (Sample.inbound "https://proxy.example/https://example.com/data"
               [(js "accept", js "*/*")])
            {| req_url := js "https://example.com/data"; method := js "GET";
               req_headers := Headers.of_list [(js "accept", js "*/*")];
               req_body := None; redirect := Manual |})
       = None
    /\ redirect
         (sentRequest
            (Sample.inbound "https://proxy.example/https://example.com/data"
               [(js "accept", js "*/*")])
            {| req_url := js "https://example.com/data"; method := js "GET";
               req_headers := Headers.of_list [(js "accept", js "*/*")];
               req_body := None; redirect := Manual |})
       = Manual.
Proof.
  apply (X9_outbound_request_shape (H := Sample.platform)
           (Sample.inbound "https://proxy.example/https://example.com/data"
              [(js "accept", js "*/*")])
           (js "https://example.com/data")).
  vm_compute. reflexivity.
Defined.

(** The JSON document of the sample site. *)
Lemma X10_pass_through_witness :
  handleRequest (H := Sample.platform)
    (Sample.inbound "https://proxy.example/https://example.com/data" [])
  = Ok {| status := 200; statusText := js "OK";
          headers :=
            setCorsHeaders
              (setNoCacheHeaders
                 (Headers.of_list [(js "content-type", js "application/json")]));
          body := Stream (jsq "{~ok~:true}") |}.
Proof.
  apply (X10_pass_through (H := Sample.platform)
           (Sample.inbound "https://proxy.example/https://example.com/data" [])
           {| href := js "https://proxy.example/https://example.com/data";
              origin := js "https://proxy.example";
              protocol := js "https:";
              host := js "proxy.example";
              pathname := js "/https://example.com/data";
              search := [] |}
           (js "https://example.com/data")
           {| req_url := js "https://example.com/data"; method := js "GET";
              req_headers := ∅; req_body := None; redirect := Manual |}
           {| status := 200; statusText := js "OK";
              headers := Headers.of_list
                           [(js "content-type", js "application/json")];
              body := Stream (jsq "{~ok~:true}") |}).
  - vm_compute. reflexivity.
  - vm_compute. reflexivity.
  - vm_compute. reflexivity.
  - vm_compute. reflexivity.
  - vm_compute. reflexivity.
  - vm_compute. reflexivity.
  - cbn [status]. lia.
  - vm_compute. reflexivity.
  - intros ct Hct. vm_compute in Hct. injection Hct as <-.
    vm_compute. reflexivity.
  - intros s. discriminate.
Defined.

(** The page of the sample site, with its link and its image. *)
Lemma X11_html_is_rewritten_witness :
  handleRequest (H := Sample.platform)
    (Sample.inbound "https://proxy.example/https://example.com/" [])
  = Ok {| status := 200; statusText := js "OK";
          headers :=
            setCorsHeaders
              (setNoCacheHeaders
                 (Headers.of_list
                    [(js "content-type", js "text/html; charset=utf-8")]));
          body := Text (jsq "<html><head><meta charset=~utf-8~></head><body><a href=~https://proxy.example/https://other.com/x~>x</a><img src=~https://proxy.example/https://example.com/logo.png~></body></html>") |}.
Proof.
  destruct (X11_html_is_rewritten (H := Sample.platform)
           (Sample.inbound "https://proxy.example/https://example.com/" [])
           {| href := js "https://proxy.example/https://example.com/";
              origin := js "https://proxy.example";
              protocol := js "https:";
              host := js "proxy.example";
              pathname := js "/https://example.com/";
              search := [] |}
           (js "https://example.com/")
           {| req_url := js "https://example.com/"; method := js "GET";
              req_headers := ∅; req_body := None; redirect := Manual |}
           {| status := 200; statusText := js "OK";
              headers := Headers.of_list
                           [(js "content-type", js "text/html; charset=utf-8")];
              body := Stream Sample.page |}
           (js "text/html; charset=utf-8"))
    as (parsed & Hparsed & Hrun).
  - vm_compute. reflexivity.
  - vm_compute. reflexivity.
  - vm_compute. reflexivity.
  - vm_compute. reflexivity.
  - vm_compute. reflexivity.
  - vm_compute. reflexivity.
  - cbn [status]. lia.
  - vm_compute. reflexivity.
  - vm_compute. reflexivity.
  - vm_compute. reflexivity.
  - rewrite Hrun. vm_compute in Hparsed. injection Hparsed as <-.
    vm_compute. reflexivity.
Defined.

(** A page that has not changed: the answer has the status 304, names
    the content type of the page and has no body. *)
Lemma X12_html_without_body_is_passed_on_witness :
  handleRequest (H := Stale.platform)
    (Sample.inbound "https://proxy.example/https://example.com/cached"
       [(js "if-none-match", js "abc")])
  = Ok {| status := 304; statusText := js "Not Modified";
          headers :=
            setCorsHeaders
              (setNoCacheHeaders
                 (Headers.of_list
                    [(js "content-type", js "text/html; charset=utf-8");
                     (js "etag", js "abc")]));
          body := NoBody |}.
Proof.
  apply (X12_html_without_body_is_passed_on (H := Stale.platform)
           (Sample.inbound "https://proxy.example/https://example.com/cached"
              [(js "if-none-match", js "abc")])
           {| href := js "https://proxy.example/https://example.com/cached";
              origin := js "https://proxy.example";
              protocol := js "https:";
              host := js "proxy.example";
              pathname := js "/https://example.com/cached";
              search := [] |}
           (js "https://example.com/cached")
           {| req_url := js "https://example.com/cached"; method := js "GET";
              req_headers := Headers.of_list [(js "if-none-match", js "abc")];
              req_body := None; redirect := Manual |}
           {| status := 304; statusText := js "Not Modified";
              headers := Headers.of_list
                           [(js "content-type", js "text/html; charset=utf-8");
                            (js "etag", js "abc")];
              body := NoBody |}
           (js "text/html; charset=utf-8")).
  - vm_compute. reflexivity.
  - vm_compute. reflexivity.
  - vm_compute. reflexivity.
  - vm_compute. reflexivity.
  - vm_compute. reflexivity.
  - right. right. left. reflexivity.
  - reflexivity.
  - reflexivity.
  - vm_compute. reflexivity.
  - vm_compute. reflexivity.
Defined.

(** An upgrade of the connection: the answer has the status 101. *)
Lemma X13_status_out_of_range_is_500_witness :
  handleRequest (H := Stale.platform)
    (Sample.inbound "https://proxy.example/https://example.com/socket" [])
  = Ok {| status := 500; statusText := js "Internal Server Error";
          headers :=
            {[ js "content-type" := [js "application/json; charset=utf-8"] ]};
          body := Text (jsq "{~error~:~Responses may only be constructed with status codes in the range 200 to 599, inclusive.~}") |}.
Proof.
  apply (X13_status_out_of_range_is_500 (H := Stale.platform)
           (Sample.inbound "https://proxy.example/https://example.com/socket" [])
           {| href := js "https://proxy.example/https://example.com/socket";
              origin := js "https://proxy.example";
              protocol := js "https:";
              host := js "proxy.example";
              pathname := js "/https://example.com/socket";
              search := [] |}
           (js "https://example.com/socket")
           {| req_url := js "https://example.com/socket"; method := js "GET";
              req_headers := ∅; req_body := None; redirect := Manual |}
           {| status := 101; statusText := js "Switching Protocols";
              headers := Headers.of_list [(js "upgrade", js "websocket")];
              body := NoBody |}).
  - vm_compute. reflexivity.
  - vm_compute. reflexivity.
  - vm_compute. reflexivity.
  - vm_compute. reflexivity.
  - vm_compute. reflexivity.
  - left. cbn [status]. lia.
Defined.

Lemma X14_returned_response_is_constructible_witness :
  (200 <= status Sample.proxied_data <= 599)%N
  /\ has_body (body Sample.proxied_data)
     && is_null_body_status (status Sample.proxied_data) = false.
Proof.
  apply (X14_returned_response_is_constructible (H := Sample.platform)
           (Sample.inbound "https://proxy.example/https://example.com/data" [])).
  vm_compute. reflexivity.
Defined.

(** ** Where a redirect leads *)

Section RedirectTargets.
Context `{Platform}.

(** X15.  The [Location] that [handleRedirect] writes is a slash
    followed by unreserved characters and percent signs only: it has no
    second slash, no question mark, no hash and no colon, so it is a
    path of one segment. *)
Theorem X15_redirect_location_is_one_segment (response : Response)
        (b : Body) (r : Response) (loc : URL) :
  handleRedirect response b = Ok r ->
  URL_parse (default [] (Headers.get (headers response) (js "location")))
  = Some loc ->
  URI.well_formed (href loc) ->
  exists tail,
    Headers.get (headers r) (js "Location") = Some (js "/" ++ tail)
    /\ Forall (fun c => URI.is_component_unit c = true) tail
    /\ forall c, In c [code "/"; code "?"; code "#"; code ":"] ->
                 ~ In c tail.
Proof.
  intros Hr Hloc Hwf.
  apply handleRedirect_Ok in Hr
    as (_ & _ & _ & (loc' & enc & Hloc' & Henc & Hget) & _).
  assert (loc' = loc) as -> by congruence.
  pose proof (EncodingFacts.encode_units (href loc) enc Hwf Henc) as Hunits.
  exists enc. split; [done|]. split; [done|].
  intros c Hc Hin. rewrite Forall_forall in Hunits.
  apply list_elem_of_In, Hunits in Hin. simpl in Hc.
  destruct Hc as [<-|[<-|[<-|[<-|[]]]]]; vm_compute in Hin; discriminate.
Qed.

(** X16.  A redirect to an [http] or [https] URL leads back through the
    proxy: a request whose path is the [Location] that [handleRedirect]
    wrote is accepted by the pattern of line 8, and its target is the
    URL to which the answer redirected, as the URL parser writes it. *)
Theorem X16_redirect_leads_back (response : Response) (b : Body)
        (r : Response) (loc : URL) :
  handleRedirect response b = Ok r ->
  URL_parse (default [] (Headers.get (headers response) (js "location")))
  = Some loc ->
  URI.well_formed (href loc) ->
  startsWith (href loc) (js "http://") || startsWith (href loc) (js "https://")
  = true ->
  exists tail,
    Headers.get (headers r) (js "Location") = Some (js "/" ++ tail)
    /\ forall u : URL,
         pathname u = js "/" ++ tail ->
         test path_regex (pathname u) = true
         /\ targetUrl u = Ok (href loc ++ search u).
Proof.
  intros Hr Hloc Hwf Hscheme.
  apply handleRedirect_Ok in Hr
    as (_ & _ & _ & (loc' & enc & Hloc' & Henc & Hget) & _).
  assert (loc' = loc) as -> by congruence.
  exists enc. split; [done|]. intros u Hu. split.
  - rewrite Hu. by apply (encoded_path_is_target (href loc)).
  - apply (targetUrl_decoded u enc (href loc)); [done| |done].
    by apply URIFacts.decode_encode.
Qed.

End RedirectTargets.

(** A redirect to a URL with a query. *)
Lemma X15_redirect_location_is_one_segment_witness :
  exists tail,
    Headers.get
      (headers
         {| status := 302; statusText := js "Found";
            headers :=
              Headers.of_list
                [(js "Location", js "/https%3A%2F%2Fexample.com%2Fa%3Fb%3D1")];
            body := NoBody |}) (js "Location")
    = Some (js "/" ++ tail)
    /\ Forall (fun c => URI.is_component_unit c = true) tail
    /\ forall c, In c [code "/"; code "?"; code "#"; code ":"] ->
                 ~ In c tail.
Proof.
  apply (X15_redirect_location_is_one_segment (H := Sample.platform)
           {| status := 302; statusText := js "Found";
              headers := Headers.of_list
                           [(js "location", js "https://example.com/a?b=1")];
              body := NoBody |} NoBody _
           {| href := js "https://example.com/a?b=1";
              origin := js "https://example.com";
              protocol := js "https:";
              host := js "example.com";
              pathname := js "/a";
              search := js "?b=1" |}).
  - vm_compute. reflexivity.
  - vm_compute. reflexivity.
  - apply (bool_decide_unpack _). vm_compute. exact I.
Defined.

Lemma X16_redirect_leads_back_witness :
  exists tail,
    Headers.get
      (headers
         {| status := 302; statusText := js "Found";
            headers :=
              Headers.of_list
                [(js "Location", js "/https%3A%2F%2Fexample.com%2Fa%3Fb%3D1")];
            body := NoBody |}) (js "Location")
    = Some (js "/" ++ tail)
    /\ forall u : URL,
         pathname u = js "/" ++ tail ->
         test path_regex (pathname u) = true
         /\ targetUrl (H := Sample.platform) u
            = Ok (js "https://example.com/a?b=1" ++ search u).
Proof.
  apply (X16_redirect_leads_back (H := Sample.platform)
           {| status := 302; statusText := js "Found";
              headers := Headers.of_list
                           [(js "location", js "https://example.com/a?b=1")];
              body := NoBody |} NoBody _
           {| href := js "https://example.com/a?b=1";
              origin := js "https://example.com";
              protocol := js "https:";
              host := js "example.com";
              pathname := js "/a";
              search := js "?b=1" |}).
  - vm_compute. reflexivity.
  - vm_compute. reflexivity.
  - apply (bool_decide_unpack _). vm_compute. exact I.
  - vm_compute. reflexivity.
Defined.

(** ** The text that the replacements leave alone *)

(** A global replacement copies a text in which the pattern matches
    nowhere. *)
Lemma scan_copies r t input (P : jsstring -> Prop) :
  (forall c s, P (c :: s) -> P s) ->
  (forall i s, P s -> match_at r i s = None) ->
  forall s i, P s -> scan r t input i s 0 = s.
Proof.
  intros Htail Hnone. induction s as [|c s IH]; intros i Hs.
  - cbn [scan]. by rewrite Hnone.
  - cbn [scan]. rewrite Hnone by done. f_equal. apply IH. by eapply Htail.
Qed.

Lemma no_opener_without_mark (rs : list rule) (marks : list jsstring) s :
  Forall (fun r => exists a mark b,
            mark ∈ marks /\ opener r = a ++ mark ++ b) rs ->
  Forall (fun mark => includes s mark = false) marks ->
  first_match rs s = None.
Proof.
  intros Hrs Hs. induction Hrs as [|r rs (a & mark & b & Hin & Ho) _ IH];
    [done|].
  cbn [first_match]. unfold applies.
  destruct (strip_prefix (opener r) s) as [rest|] eqn:E; [|done].
  apply strip_prefix_Some in E. rewrite Ho in E. subst s.
  rewrite Forall_forall in Hs. specialize (Hs mark Hin).
  rewrite <- !app_assoc in Hs. by rewrite includes_app in Hs.
Qed.

Lemma absolute_openers protocol host :
  Forall (fun r => exists a mark b,
            mark ∈ [jsq "=~"; js "='"] /\ opener r = a ++ mark ++ b)
    (absolute_link_rules protocol host).
Proof.
  unfold absolute_link_rules. cbn [fmap list_fmap].
  repeat apply Forall_cons_2; [..|done]; cbn [opener];
    eexists _, (jsq "=~"), _; (split; [by left|reflexivity]).
Qed.

Lemma relative_openers protocol host origin :
  Forall (fun r => exists a mark b,
            mark ∈ [jsq "=~"; js "='"] /\ opener r = a ++ mark ++ b)
    (relative_path_rules protocol host origin).
Proof.
  unfold relative_path_rules. cbn [fmap list_fmap].
  repeat apply Forall_cons_2; [..|done]; cbn [opener].
  1,3,5: eexists _, (jsq "=~"), (js "/"); (split; [by left|reflexivity]).
  all: eexists _, (js "='"), (js "/");
    (split; [right; by left|reflexivity]).
Qed.

(** X17.  A text in which no equals sign is followed by a quote comes
    out of both replacements as it went in, whatever the protocol, the
    host and the origin are. *)
Theorem X17_text_without_quoted_values_is_kept
        (text protocol host origin : jsstring) :
  includes text (jsq "=~") = false ->
  includes text (js "='") = false ->
  rewriteLinks text protocol host origin = text.
Proof.
  intros H1 H2.
  set (P := fun s : jsstring =>
              Forall (fun mark => includes s mark = false)
                [jsq "=~"; js "='"]).
  assert (forall c s, P (c :: s) -> P s) as Htail.
  { intros c s Hs. unfold P in *. rewrite !Forall_forall in *.
    intros mark Hm. by apply (includes_tail c), Hs. }
  assert (P text) as Htext by (repeat apply Forall_cons_2; done).
  unfold rewriteLinks, prefixAbsoluteLinks, replaceRelativePaths, replace_all.
  rewrite (scan_copies absolute_link_regex _ _ P Htail); [|clear Htext|done].
  - apply (scan_copies relative_path_regex _ _ P Htail); [|done].
    intros i s Hs.
    pose proof (relative_path_realised [] [] [] eq_refl eq_refl eq_refl
                  [] i s) as Hreal.
    by rewrite (no_opener_without_mark _ _ s (relative_openers [] [] []) Hs)
      in Hreal.
  - intros i s Hs.
    pose proof (absolute_link_realised [] [] eq_refl eq_refl [] i s) as Hreal.
    by rewrite (no_opener_without_mark _ _ s (absolute_openers [] []) Hs)
      in Hreal.
Qed.

Lemma X17_text_without_quoted_values_is_kept_witness :
  rewriteLinks (js "<p>src = /a, see https://other.com/x</p>")
    (js "https:") (js "proxy.example") (js "https://example.com")
  = js "<p>src = /a, see https://other.com/x</p>".
Proof.
  apply (X17_text_without_quoted_values_is_kept
           (js "<p>src = /a, see https://other.com/x</p>")).
  - vm_compute. reflexivity.
  - vm_compute. reflexivity.
Defined.

Section Kept.
Variables protocol host origin : jsstring.
Hypothesis Hprotocol : no_dollar protocol = true.
Hypothesis Hhost : no_dollar host = true.
Hypothesis Horigin : no_dollar origin = true.

Lemma protocol_relative_kept_abs pre attr q rest :
  In attr [js "href"; js "src"; js "action"] ->
  In q [dquote; code "'"] ->
  prefixAbsoluteLinks (pre ++ attr ++ js "=" ++ [q] ++ js "//" ++ rest)
    protocol host
  = prefixAbsoluteLinks pre protocol host
    ++ attr ++ js "=" ++ [q] ++ js "//"
    ++ prefixAbsoluteLinks rest protocol host.
Proof.
  pose proof (abs_real protocol host Hprotocol Hhost) as Habs.
  intros Hattr Hq. unfold prefixAbsoluteLinks.
  rewrite (replace_all_app _ _ _ Habs).
  - f_equal. simpl in Hattr, Hq.
    destruct Hattr as [<-|[<-|[<-|[]]]]; destruct Hq as [<-|[<-|[]]];
      literals; unfold dquote; cbn [app];
      repeat (rewrite (replace_all_copy _ _ _ Habs) by (vm_compute; reflexivity));
      reflexivity.
  - simpl in Hattr, Hq.
    destruct Hattr as [<-|[<-|[<-|[]]]]; destruct Hq as [<-|[<-|[]]];
      vm_compute; reflexivity.
Qed.

Lemma protocol_relative_kept_rel pre attr q rest :
  In attr [js "href"; js "src"; js "action"] ->
  In q [dquote; code "'"] ->
  replaceRelativePaths (pre ++ attr ++ js "=" ++ [q] ++ js "//" ++ rest)
    protocol host origin
  = replaceRelativePaths pre protocol host origin
    ++ attr ++ js "=" ++ [q] ++ js "//"
    ++ replaceRelativePaths rest protocol host origin.
Proof.
  pose proof (rel_real protocol host origin Hprotocol Hhost Horigin) as Hrel.
  intros Hattr Hq. unfold replaceRelativePaths.
  rewrite (replace_all_app _ _ _ Hrel).
  - f_equal. simpl in Hattr, Hq.
    destruct Hattr as [<-|[<-|[<-|[]]]]; destruct Hq as [<-|[<-|[]]];
      literals; unfold dquote; cbn [app];
      repeat (rewrite (replace_all_copy _ _ _ Hrel) by (vm_compute; reflexivity));
      reflexivity.
  - simpl in Hattr, Hq.
    destruct Hattr as [<-|[<-|[<-|[]]]]; destruct Hq as [<-|[<-|[]]];
      vm_compute; reflexivity.
Qed.
End Kept.

(** X18.  A link that starts with two slashes is left as it is by both
    replacements, in either kind of quotes, and the text before it and
    the text after the two slashes are rewritten on their own: such a
    link is not led through the proxy.  The protocol, the host and the
    origin are taken to be free of the dollar sign. *)
Theorem X18_protocol_relative_links_are_kept
        (protocol host origin pre attr rest : jsstring) (q : N) :
  no_dollar protocol = true -> no_dollar host = true ->
  no_dollar origin = true ->
  In attr [js "href"; js "src"; js "action"] ->
  In q [dquote; code "'"] ->
  rewriteLinks (pre ++ attr ++ js "=" ++ [q] ++ js "//" ++ rest)
    protocol host origin
  = rewriteLinks pre protocol host origin
    ++ attr ++ js "=" ++ [q] ++ js "//"
    ++ rewriteLinks rest protocol host origin.
Proof.
  intros Hp Hh Ho Hattr Hq. unfold rewriteLinks.
  rewrite protocol_relative_kept_abs by done.
  by rewrite protocol_relative_kept_rel.
Qed.

Lemma X18_protocol_relative_links_are_kept_witness :
  rewriteLinks (jsq "<script src=~//cdn.example.com/app.js~>")
    (js "https:") (js "proxy.example") (js "https://example.com")
  = jsq "<script src=~//cdn.example.com/app.js~>".
Proof.
  change (jsq "<script src=~//cdn.example.com/app.js~>")
    with (js "<script " ++ js "src" ++ js "=" ++ [dquote] ++ js "//"
            ++ jsq "cdn.example.com/app.js~>") at 1.
  rewrite (X18_protocol_relative_links_are_kept
             (js "https:") (js "proxy.example") (js "https://example.com")
             (js "<script ") (js "src") (jsq "cdn.example.com/app.js~>") dquote).
  - vm_compute. reflexivity.
  - vm_compute. reflexivity.
  - vm_compute. reflexivity.
  - vm_compute. reflexivity.
  - right. left. reflexivity.
  - left. reflexivity.
Defined.

(** ** The error body *)

Lemma quote_units_plain s :
  forallb JSON.is_plain_unit s = true -> JSON.quote_units s = s.
Proof.
  induction s as [|c s IH]; [done|]. cbn [forallb JSON.quote_units].
  intros [Hc Hs]%andb_prop. unfold JSON.is_plain_unit in Hc.
  apply andb_prop in Hc as [Hc Hlow]. apply andb_prop in Hc as [Hc Hhigh].
  apply andb_prop in Hc as [Hc Hback]. apply andb_prop in Hc as [Hc Hquote].
  apply negb_true_iff in Hlow, Hhigh, Hback, Hquote.
  rewrite Hhigh, Hlow. unfold JSON.quote_unit.
  rewrite Hquote, Hback.
  apply N.leb_le in Hc.
  destruct (N.eqb_spec c 8); [lia|]. destruct (N.eqb_spec c 9); [lia|].
  destruct (N.eqb_spec c 10); [lia|]. destruct (N.eqb_spec c 12); [lia|].
  destruct (N.eqb_spec c 13); [lia|].
  destruct (N.ltb_spec c 32); [lia|].
  cbn [app]. by rewrite IH.
Qed.

Section ErrorBody.
Context `{Platform}.
Import HeadersFacts.

(** X19.  When the message of what the [try] block threw has no control
    character, double quote, backslash or surrogate, the body of the
    error response is the message itself between [{~error~:~] and [~}],
    where [~] is written for the double quote. *)
Theorem X19_error_body_of_plain_message (request : Request)
        (message : jsstring) :
  handleRequest_try request = Throw message ->
  forallb JSON.is_plain_unit message = true ->
  handleRequest request
  = Ok {| status := 500; statusText := reason_phrase 500;
          headers :=
            {[ js "content-type" := [js "application/json; charset=utf-8"] ]};
          body := Text (jsq "{~error~:~" ++ message ++ jsq "~}") |}.
Proof.
  intros Htry Hplain.
  rewrite (handleRequest_caught _ _ Htry), jsonResponse_Ok.
  rewrite of_list_single.
  unfold JSON.stringify_error, JSON.quote.
  rewrite quote_units_plain by done.
  change (lower (js "Content-Type")) with (js "content-type").
  change (jsq "{~error~:~") with (jsq "{~error~:" ++ [dquote]).
  change (jsq "~}") with ([dquote] ++ js "}").
  do 3 f_equal. cbn [app]. by rewrite <- app_assoc.
Qed.
End ErrorBody.

(** The host [down.example] does not answer. *)
Lemma X19_error_body_of_plain_message_witness :
  handleRequest (H := Sample.platform)
    (Sample.inbound "https://proxy.example/https://down.example/" [])
  = Ok {| status := 500; statusText := js "Internal Server Error";
          headers :=
            {[ js "content-type" := [js "application/json; charset=utf-8"] ]};
          body := Text (jsq "{~error~:~" ++ js "Network connection lost."
                          ++ jsq "~}") |}.
Proof.
  apply (X19_error_body_of_plain_message (H := Sample.platform)).
  - vm_compute. reflexivity.
  - vm_compute. reflexivity.
Defined.

(** ** Targets that cannot be reached, and redirects that can be told apart *)

Section MoreTargets.
Context `{Platform}.

(** X20.  Two redirects whose rewritten [Location] headers are equal
    lead to the same URL: the encoding of line 98 loses nothing of the
    URL as the parser writes it. *)
Theorem X20_locations_tell_targets_apart (response1 response2 : Response)
        (b1 b2 : Body) (r1 r2 : Response) (loc1 loc2 : URL) :
  handleRedirect response1 b1 = Ok r1 ->
  handleRedirect response2 b2 = Ok r2 ->
  URL_parse (default [] (Headers.get (headers response1) (js "location")))
  = Some loc1 ->
  URL_parse (default [] (Headers.get (headers response2) (js "location")))
  = Some loc2 ->
  URI.well_formed (href loc1) -> URI.well_formed (href loc2) ->
  Headers.get (headers r1) (js "Location")
  = Headers.get (headers r2) (js "Location") ->
  href loc1 = href loc2.
Proof.
  intros Hr1 Hr2 Hloc1 Hloc2 Hwf1 Hwf2 Hsame.
  apply handleRedirect_Ok in Hr1
    as (_ & _ & _ & (loc1' & enc1 & Hloc1' & Henc1 & Hget1) & _).
  apply handleRedirect_Ok in Hr2
    as (_ & _ & _ & (loc2' & enc2 & Hloc2' & Henc2 & Hget2) & _).
  assert (loc1' = loc1) as -> by congruence.
  assert (loc2' = loc2) as -> by congruence.
  rewrite Hget1, Hget2 in Hsame.
  assert (enc1 = enc2) as -> by (by injection Hsame).
  apply (URIFacts.decode_encode _ _ Hwf1) in Henc1.
  apply (URIFacts.decode_encode _ _ Hwf2) in Henc2.
  congruence.
Qed.

(** X21.  A path that matches the pattern but whose target the URL
    parser refuses is answered with status 500 and the message of the
    parser as a JSON error. *)
Theorem X21_unparseable_target_is_500 (request : Request) (u : URL)
        (target : jsstring) :
  URL_parse (req_url request) = Some u ->
  test path_regex (pathname u) = true ->
  targetUrl u = Ok target ->
  URL_parse target = None ->
  handleRequest request
  = Ok {| status := 500; statusText := reason_phrase 500;
          headers :=
            {[ js "content-type" := [js "application/json; charset=utf-8"] ]};
          body := Text (JSON.stringify_error
                          (error_message (InvalidURL target))) |}.
Proof.
  intros Hu Ht Htarget Hparse.
  unfold handleRequest, handleRequest_outcome, handleRequest_try, URL_new.
  rewrite Hu. cbn [bind].
  rewrite bool_decide_false by by apply root_is_no_target.
  rewrite Ht. cbn [negb]. rewrite Htarget. cbn [bind].
  unfold modifiedRequest, Request_new, URL_new. rewrite Hparse.
  reflexivity.
Qed.

End MoreTargets.

(** The headers [https://example.com] and [https://example.com/] name
    the same URL. *)
Lemma X20_locations_tell_targets_apart_witness :
  handleRedirect (H := Sample.platform)
    {| status := 302; statusText := js "Found";
       headers := Headers.of_list [(js "location", js "https://example.com")];
       body := NoBody |} NoBody
  = Ok {| status := 302; statusText := js "Found";
          headers := Headers.of_list
                       [(js "Location", js "/https%3A%2F%2Fexample.com%2F")];
          body := NoBody |}
  /\ handleRedirect (H := Sample.platform)
       {| status := 301; statusText := js "Moved Permanently";
          headers := Headers.of_list
                       [(js "location", js "https://example.com/")];
          body := NoBody |} NoBody
     = Ok {| status := 301; statusText := js "Moved Permanently";
             headers := Headers.of_list
                          [(js "Location", js "/https%3A%2F%2Fexample.com%2F")];
             body := NoBody |}
  /\ js "https://example.com/" = js "https://example.com/".
Proof.
  assert (handleRedirect (H := Sample.platform)
            {| status := 302; statusText := js "Found";
               headers := Headers.of_list
                            [(js "location", js "https://example.com")];
               body := NoBody |} NoBody
          = Ok {| status := 302; statusText := js "Found";
                  headers :=
                    Headers.of_list
                      [(js "Location", js "/https%3A%2F%2Fexample.com%2F")];
                  body := NoBody |}) as Hr1 by (vm_compute; reflexivity).
  assert (handleRedirect (H := Sample.platform)
            {| status := 301; statusText := js "Moved Permanently";
               headers := Headers.of_list
                            [(js "location", js "https://example.com/")];
               body := NoBody |} NoBody
          = Ok {| status := 301; statusText := js "Moved Permanently";
                  headers :=
                    Headers.of_list
                      [(js "Location", js "/https%3A%2F%2Fexample.com%2F")];
                  body := NoBody |}) as Hr2 by (vm_compute; reflexivity).
  split; [exact Hr1|]. split; [exact Hr2|].
  apply (X20_locations_tell_targets_apart (H := Sample.platform) _ _ _ _ _ _
           {| href := js "https://example.com/";
              origin := js "https://example.com";
              protocol := js "https:";
              host := js "example.com";
              pathname := js "/";
              search := [] |}
           {| href := js "https://example.com/";
              origin := js "https://example.com";
              protocol := js "https:";
              host := js "example.com";
              pathname := js "/";
              search := [] |} Hr1 Hr2).
  - vm_compute. reflexivity.
  - vm_compute. reflexivity.
  - apply (bool_decide_unpack _). vm_compute. exact I.
  - apply (bool_decide_unpack _). vm_compute. exact I.
  - vm_compute. reflexivity.
Defined.

(** A scheme without a host. *)
Lemma X21_unparseable_target_is_500_witness :
  handleRequest (H := Sample.platform)
    (Sample.inbound "https://proxy.example/https://" [])
  = Ok {| status := 500; statusText := js "Internal Server Error";
          headers :=
            {[ js "content-type" := [js "application/json; charset=utf-8"] ]};
          body := Text (jsq "{~error~:~Invalid URL~}") |}.
Proof.
  apply (X21_unparseable_target_is_500 (H := Sample.platform) _
           {| href := js "https://proxy.example/https://";
              origin := js "https://proxy.example";
              protocol := js "https:";
              host := js "proxy.example";
              pathname := js "/https://";
              search := [] |}
           (js "https://")).
  - vm_compute. reflexivity.
  - vm_compute. reflexivity.
  - vm_compute. reflexivity.
  - vm_compute. reflexivity.
Defined.

(** ** A single slash after the scheme *)

Section SingleSlash.
Context `{Platform}.

(** X22.  The pattern of line 8 asks for one slash after the colon.  A
    path that names its target with a single slash there, and without a
    percent sign, is accepted, but its target is not taken to have a
    protocol: [ensureProtocol] puts the protocol of the request and two
    slashes in front of it. *)
Theorem X22_single_slash_target (u : URL) (scheme rest : jsstring) :
  In scheme [js "http:/"; js "https:/"] ->
  pathname u = js "/" ++ scheme ++ rest ->
  startsWith rest (js "/") = false ->
  Forall (fun c => c <> code "%") rest ->
  test path_regex (pathname u) = true
  /\ targetUrl u = Ok (protocol u ++ js "//" ++ scheme ++ rest ++ search u).
Proof.
  intros Hscheme Hp Hrest Hplain.
  assert (Forall (fun c => c <> code "%") (scheme ++ rest)) as Hall.
  { apply Forall_app. split; [|done]. simpl in Hscheme.
    destruct Hscheme as [<-|[<-|[]]];
      apply (bool_decide_unpack _); vm_compute; exact I. }
  assert (startsWith (scheme ++ rest) (js "http://")
          || startsWith (scheme ++ rest) (js "https://") = false) as Hno.
  { unfold startsWith in *. simpl in Hscheme.
    destruct Hscheme as [<-|[<-|[]]].
    - change (js "http://") with (js "http:/" ++ js "/").
      rewrite strip_prefix_cat, strip_prefix_app.
      by destruct (strip_prefix (js "/") rest).
    - change (js "https://") with (js "https:/" ++ js "/").
      rewrite (strip_prefix_cat (js "https:/")), strip_prefix_app.
      by destruct (strip_prefix (js "/") rest). }
  split.
  - rewrite Hp. simpl in Hscheme.
    destruct Hscheme as [<-|[<-|[]]]; vm_compute; reflexivity.
  - unfold targetUrl, decodeURIComponent.
    rewrite Hp, replace_first_slash, decode_plain by done. cbn [bind].
    unfold ensureProtocol. rewrite Hno. by rewrite <- !app_assoc.
Qed.

End SingleSlash.

Lemma X22_single_slash_target_witness :
  test path_regex (js "/https:/example.com/a") = true
  /\ targetUrl (H := Sample.platform)
       {| href := js "https://proxy.example/https:/example.com/a";
          origin := js "https://proxy.example";
          protocol := js "https:";
          host := js "proxy.example";
          pathname := js "/https:/example.com/a";
          search := [] |}
     = Ok (js "https://https:/example.com/a").
Proof.
  apply (X22_single_slash_target (H := Sample.platform)
           {| href := js "https://proxy.example/https:/example.com/a";
              origin := js "https://proxy.example";
              protocol := js "https:";
              host := js "proxy.example";
              pathname := js "/https:/example.com/a";
              search := [] |}
           (js "https:/") (js "example.com/a")).
  - right. left. reflexivity.
  - reflexivity.
  - vm_compute. reflexivity.
  - apply (bool_decide_unpack _). vm_compute. exact I.
Defined.

(** ** Where the status comes from *)

Section Status.
Context `{Platform}.

(** X23.  The handler invents no status.  What it returns is the landing
    page with status 200, the search redirect with status 302, the error
    response with status 500, or a response with the status and the
    status text of the answer that the target gave to the one request
    that was sent. *)
Theorem X23_status_comes_from_target (request : Request) (r : Response) :
  handleRequest request = Ok r ->
  (status r = 200%N /\ body r = Text defaultHtml)
  \/ (status r = 302%N /\ body r = NoBody)
  \/ (status r = 500%N
      /\ exists message, body r = Text (JSON.stringify_error message))
  \/ exists target m response,
       modifiedRequest request target = Ok m
       /\ fetch_network (sentRequest request m) = Ok response
       /\ status r = status response
       /\ statusText r = statusText response.
Proof.
  unfold handleRequest, handleRequest_outcome. intros Hr.
  destruct (handleRequest_try request) as [[o r']|e] eqn:Htry.
  - cbn in Hr. injection Hr as ->. unfold handleRequest_try in Htry.
    bind_inv Htry. case_bool_decide.
    { bind_inv Htry. injection Htry as _ <-. left.
      apply Response_new_Ok in Ha0 as (Hs & _ & Hb & _). done. }
    destruct (negb _).
    { bind_inv Htry. injection Htry as _ <-. right. left.
      apply Response_new_Ok in Ha0 as (Hs & _ & Hb & _). done. }
    do 3 bind_inv Htry. right. right. right.
    exists a0, a1, a2. split; [done|]. split; [done|].
    destruct (is_redirect_status _).
    { bind_inv Htry. injection Htry as _ <-.
      by apply handleRedirect_Ok in Ha3 as (Hs & Ht & _). }
    do 2 bind_inv Htry. injection Htry as _ <-. cbn [status statusText].
    by apply Response_new_Ok in Ha4 as (Hs & Ht & _).
  - rewrite jsonResponse_Ok in Hr. cbn in Hr. injection Hr as <-.
    right. right. left. split; [done|]. by exists e.
Qed.

End Status.

(** The JSON document of the sample site: the fourth case. *)
Lemma X23_status_comes_from_target_witness :
  (status Sample.proxied_data = 200%N
   /\ body Sample.proxied_data
      = Text (defaultHtml (Platform := Sample.platform)))
  \/ (status Sample.proxied_data = 302%N /\ body Sample.proxied_data = NoBody)
  \/ (status Sample.proxied_data = 500%N
      /\ exists message,
           body Sample.proxied_data = Text (JSON.stringify_error message))
  \/ exists target m response,
       modifiedRequest (H := Sample.platform)
         (Sample.inbound "https://proxy.example/https://example.com/data" [])
         target = Ok m
       /\ fetch_network (Platform := Sample.platform)
            (sentRequest
               (Sample.inbound
                  "https://proxy.example/https://example.com/data" []) m)
          = Ok response
       /\ status Sample.proxied_data = status response
       /\ statusText Sample.proxied_data = statusText response.
Proof.
  apply (X23_status_comes_from_target (H := Sample.platform)
           (Sample.inbound "https://proxy.example/https://example.com/data" [])).
  vm_compute. reflexivity.
Defined.
